(** * UMC HB4 (8881F) host bridge: configuration registers, shadow RAM and SMRAM

    A shallow embedding of [src/chipset/umc_hb4.c].  The device owns a
    128-byte PCI configuration array; register writes push permission
    updates to the memory and SMRAM subsystems.  Those subsystems live in
    other translation units, so every call into them is recorded, in
    program order, in a call log carried by the machine state. *)

From Stdlib Require Import ZArith Lia Bool List.
From stdpp Require Import base tactics option list.

Local Open Scope Z_scope.

(** ** C values *)

(** Conversion to [uint8_t]: what a store into [pci_conf] does to an [int]. *)
Definition u8 (z : Z) : Z := z mod 256.

(** A C scalar used as a condition: true iff it is not zero. *)
Definition nonzero (z : Z) : bool := negb (z =? 0).

(** The value range of [uint8_t]. *)
Definition is_byte (z : Z) : Prop := 0 <= z < 256.

(** ** Collaborators *)

(** Modelled from the spec: the [MEM_READ_*] and [MEM_WRITE_*] macros of
    [86box/mem.h] are not part of the sources at hand.  The spec names the two
    read modes and the two write modes that the bridge uses (Internal and
    ExternalAny); a state word [MEM_READ_x | MEM_WRITE_y] is kept as the pair
    of its two fields. *)
Inductive mem_read : Set := MEM_READ_INTERNAL | MEM_READ_EXTANY.
Inductive mem_write : Set := MEM_WRITE_INTERNAL | MEM_WRITE_EXTANY.

Record mem_state : Set := mem_flags { rd : mem_read; wr : mem_write }.

(** The handle returned by [smram_add]. *)
Definition smram_t : Set := Z.

(** One call into another translation unit, with its actual arguments.
    [smram_enable] takes the handle, the guest base, the backing base, the
    length and the two visibility flags (outside and inside SMM);
    [mem_set_mem_state_smram_ex] takes the alias index, base, length and
    routing mode. *)
Inductive call : Set :=
| mem_set_mem_state_both (base size : Z) (state : mem_state)
| flushmmucache_nopc
| smram_disable_all
| smram_enable (smr : smram_t) (host_base ram_base size flags_normal flags_smm : Z)
| mem_set_mem_state_smram_ex (smm base size state : Z)
| cpu_update_waitstates
| pci_add_card_northbridge
| device_add_port_92_pci
| smram_add.

(** ** Device and machine state *)

Record hb4_t : Set := mk_hb4 {
  pci_conf : list Z;     (* uint8_t pci_conf[128] *)
  smram : smram_t        (* smram_t *smram *)
}.

Record machine : Set := mk_machine {
  dev : hb4_t;
  cpu_cache_ext_enabled : Z;   (* global of cpu.h *)
  calls : list call            (* calls made so far, oldest first *)
}.

(** The array has 128 entries and every entry is a [uint8_t]. *)
Definition wf (m : machine) : Prop :=
  length (pci_conf (dev m)) = 128%nat /\ Forall is_byte (pci_conf (dev m)).

(** [dev->pci_conf[addr]] as an rvalue; [None] when the index is outside the
    array, where C leaves the access undefined. *)
Definition conf (m : machine) (addr : Z) : option Z :=
  if (0 <=? addr) && (addr <? Z.of_nat (length (pci_conf (dev m))))
  then pci_conf (dev m) !! Z.to_nat addr
  else None.

Definition set_conf (m : machine) (addr val : Z) : machine :=
  mk_machine (mk_hb4 (<[Z.to_nat addr := u8 val]> (pci_conf (dev m))) (smram (dev m)))
             (cpu_cache_ext_enabled m) (calls m).

Definition add_calls (m : machine) (cs : list call) : machine :=
  mk_machine (dev m) (cpu_cache_ext_enabled m) (calls m ++ cs).

(** ** The monad of device code

    A computation reads and updates the machine and may be undefined. *)
Definition M (A : Type) : Type := machine -> option (A * machine).

Definition ret {A} (a : A) : M A := fun m => Some (a, m).

Definition bind {A B} (c : M A) (k : A -> M B) : M B :=
  fun m => match c m with
           | Some (a, m') => k a m'
           | None => None
           end.

Notation "x <- c ;; k" := (bind c (fun x => k))
  (at level 100, c at next level, right associativity).
Notation "c ;; k" := (bind c (fun _ => k))
  (at level 100, right associativity).

(** Read [dev->pci_conf[addr]]. *)
Definition load (addr : Z) : M Z :=
  fun m => match conf m addr with
           | Some v => Some (v, m)
           | None => None
           end.

(** [dev->pci_conf[addr] = val]. *)
Definition store (addr val : Z) : M unit :=
  fun m => match conf m addr with
           | Some _ => Some (tt, set_conf m addr val)
           | None => None
           end.

(** Read [dev->smram]. *)
Definition load_smram : M smram_t := fun m => Some (smram (dev m), m).

(** [cpu_cache_ext_enabled = v]. *)
Definition set_cpu_cache_ext_enabled (v : Z) : M unit :=
  fun m => Some (tt, mk_machine (dev m) v (calls m)).

(** Call a collaborator. *)
Definition emit (c : call) : M unit := fun m => Some (tt, add_calls m [c]).

(** [for (int i = lo; i < lo + n; i++) body(i)] *)
Fixpoint for_loop (n : nat) (i : Z) (body : Z -> M unit) : M unit :=
  match n with
  | O => ret tt
  | S n' => body i ;; for_loop n' (i + 1) body
  end.

(** ** hb4_shadow *)

Definition hb4_shadow : M unit :=
  r55 <- load 0x55 ;;
  r55' <- load 0x55 ;;
  emit (mem_set_mem_state_both 0xe0000 0x20000
          (mem_flags
             (if nonzero (Z.land r55 0x80) then MEM_READ_INTERNAL else MEM_READ_EXTANY)
             (if nonzero (Z.land r55' 0x40) then MEM_WRITE_EXTANY else MEM_WRITE_INTERNAL))) ;;
  r54 <- load 0x54 ;;
  (if nonzero (Z.land r54 1) then
     (r54 <- load 0x54 ;;
      if nonzero (Z.land r54 2) then
        r55 <- load 0x55 ;;
        emit (mem_set_mem_state_both 0xc0000 0x8000
                (mem_flags MEM_READ_INTERNAL
                   (if nonzero (Z.land r55 0x40) then MEM_WRITE_EXTANY else MEM_WRITE_INTERNAL)))
      else
        emit (mem_set_mem_state_both 0xc0000 0x8000
                (mem_flags MEM_READ_EXTANY MEM_WRITE_EXTANY))) ;;
     for_loop 5 0 (fun i =>
       r54 <- load 0x54 ;;
       if nonzero (Z.land (Z.shiftr r54 i) 4) then
         r55 <- load 0x55 ;;
         emit (mem_set_mem_state_both (0xc8000 + Z.shiftl i 14) 0x8000
                 (mem_flags MEM_READ_INTERNAL
                    (if nonzero (Z.land r55 0x40) then MEM_WRITE_EXTANY else MEM_WRITE_INTERNAL)))
       else
         emit (mem_set_mem_state_both (0xc8000 + Z.shiftl i 14) 0x8000
                 (mem_flags MEM_READ_EXTANY MEM_WRITE_EXTANY)))
   else ret tt) ;;
  emit flushmmucache_nopc.

(** ** hb4_smram *)

Definition hb4_smram : M unit :=
  emit smram_disable_all ;;
  smr <- load_smram ;;
  r60 <- load 0x60 ;;
  emit (smram_enable smr 0x000a0000 0x000a0000 0x20000 (Z.land r60 0x01) 1) ;;
  r60 <- load 0x60 ;;
  if nonzero (Z.land r60 0x20) then
    r60 <- load 0x60 ;;
    (if nonzero (Z.land r60 0x01)
     then emit (mem_set_mem_state_smram_ex 0 0x000a0000 0x20000 0x02)
     else ret tt) ;;
    emit (mem_set_mem_state_smram_ex 1 0x000a0000 0x20000 0x02)
  else ret tt.

(** ** hb4_write, hb4_read

    [val] is a [uint8_t] parameter: callers pass a byte. *)
Definition hb4_write (func addr val : Z) : M unit :=
  match addr with
  | 0x04 | 0x05 => store addr val
  | 0x07 =>
      old <- load addr ;;
      store addr (Z.land old (Z.lnot (Z.land val 0xf9)))
  | 0x0c | 0x0d => store addr val
  | 0x50 =>
      store addr (Z.lor (Z.land val 0xf8) 4) ;;
      set_cpu_cache_ext_enabled (Z.b2z (nonzero (Z.land val 0x80))) ;;
      emit cpu_update_waitstates
  | 0x51 | 0x52 | 0x53 => store addr val
  | 0x54 | 0x55 =>
      store addr val ;;
      hb4_shadow
  | 0x56 | 0x57 | 0x58 | 0x59 | 0x5a | 0x5b | 0x5c | 0x5d | 0x5e | 0x5f =>
      store addr val
  | 0x60 =>
      store addr val ;;
      hb4_smram
  | 0x61 => store addr val
  | _ => ret tt
  end.

Definition hb4_read (func addr : Z) : M Z := load addr.

(** ** hb4_reset, hb4_init *)

Definition hb4_reset : M unit :=
  store 0 0x60 ;;
  store 1 0x10 ;;
  store 2 0x81 ;;
  store 3 0x88 ;;
  store 7 2 ;;
  store 8 4 ;;
  store 0x09 0x00 ;;
  store 0x0a 0x00 ;;
  store 0x0b 0x06 ;;
  store 0x51 1 ;;
  store 0x52 1 ;;
  store 0x5a 4 ;;
  store 0x5c 0xc0 ;;
  store 0x5d 0x20 ;;
  store 0x5f 0xff ;;
  hb4_shadow ;;
  hb4_write 0 0x60 0x20.

(** [hb4_init]: a zeroed device, registered with the bus, with the port 92
    device and an SMRAM handle, then reset.  [smr] is what [smram_add]
    returns; [cache] and [cs] are the global flag and the calls made before. *)
Definition hb4_init (smr : smram_t) (cache : Z) (cs : list call) : option (unit * machine) :=
  (emit pci_add_card_northbridge ;;
   emit device_add_port_92_pci ;;
   emit smram_add ;;
   (fun m => Some (tt, mk_machine (mk_hb4 (pci_conf (dev m)) smr)
                                  (cpu_cache_ext_enabled m) (calls m))) ;;
   hb4_reset)
    (mk_machine (mk_hb4 (replicate 128 0) 0) cache cs).

(** A machine right after construction, used to run the code on. *)
Definition m_init : machine :=
  match hb4_init 7 0 [] with
  | Some (_, m) => m
  | None => mk_machine (mk_hb4 [] 0) 0 []
  end.

(** ** Call sequences and address ranges

    Definitions used to state and prove what the device code calls. *)

(** A boolean check of [wf], to run on concrete machines. *)
Definition wf_b (m : machine) : bool :=
  (length (pci_conf (dev m)) =? 128)%nat
  && forallb (fun z => (0 <=? z) && (z <? 256)) (pci_conf (dev m)).

(** The calls of a loop whose body makes one call per iteration. *)
Fixpoint loop_calls (n : nat) (i : Z) (f : Z -> call) : list call :=
  match n with
  | O => []
  | S n' => f i :: loop_calls n' (i + 1) f
  end.

(** The write mode that bit 6 of register 0x55 selects. *)
Definition shadow_wr (r55 : Z) : mem_write :=
  if nonzero (Z.land r55 0x40) then MEM_WRITE_EXTANY else MEM_WRITE_INTERNAL.

(** The call of iteration [i] of the loop of [hb4_shadow]. *)
Definition window_call (r54 r55 i : Z) : call :=
  mem_set_mem_state_both (0xc8000 + Z.shiftl i 14) 0x8000
    (if nonzero (Z.land (Z.shiftr r54 i) 4)
     then mem_flags MEM_READ_INTERNAL (shadow_wr r55)
     else mem_flags MEM_READ_EXTANY MEM_WRITE_EXTANY).

(** The calls of one run of [hb4_shadow], from the two registers it reads. *)
Definition shadow_calls (r54 r55 : Z) : list call :=
  mem_set_mem_state_both 0xe0000 0x20000
    (mem_flags (if nonzero (Z.land r55 0x80) then MEM_READ_INTERNAL else MEM_READ_EXTANY)
               (shadow_wr r55))
  :: (if nonzero (Z.land r54 1)
      then mem_set_mem_state_both 0xc0000 0x8000
             (if nonzero (Z.land r54 2)
              then mem_flags MEM_READ_INTERNAL (shadow_wr r55)
              else mem_flags MEM_READ_EXTANY MEM_WRITE_EXTANY)
           :: loop_calls 5 0 (window_call r54 r55)
      else [])
  ++ [flushmmucache_nopc].

(** The calls of one run of [hb4_smram], from the handle and register 0x60. *)
Definition smram_calls (smr : smram_t) (r60 : Z) : list call :=
  smram_disable_all
  :: smram_enable smr 0xa0000 0xa0000 0x20000 (Z.land r60 1) 1
  :: (if nonzero (Z.land r60 0x20)
      then (if nonzero (Z.land r60 1)
            then [mem_set_mem_state_smram_ex 0 0xa0000 0x20000 2]
            else [])
           ++ [mem_set_mem_state_smram_ex 1 0xa0000 0x20000 2]
      else []).

(** The (base, length) of every permission update in a call sequence. *)
Fixpoint windows (cs : list call) : list (Z * Z) :=
  match cs with
  | [] => []
  | mem_set_mem_state_both base size _ :: cs' => (base, size) :: windows cs'
  | _ :: cs' => windows cs'
  end.

(** The states given, in call order, by the updates whose range holds [a]. *)
Fixpoint covering (a : Z) (cs : list call) : list mem_state :=
  match cs with
  | [] => []
  | mem_set_mem_state_both base size st :: cs' =>
      if (base <=? a) && (a <? base + size) then st :: covering a cs' else covering a cs'
  | _ :: cs' => covering a cs'
  end.

(** Two half-open ranges [base, base + length) share no address. *)
Definition disjoint (w1 w2 : Z * Z) : bool :=
  (fst w1 + snd w1 <=? fst w2) || (fst w2 + snd w2 <=? fst w1).

(** No two ranges of the list share an address. *)
Fixpoint pairwise_disjoint (ws : list (Z * Z)) : bool :=
  match ws with
  | [] => true
  | w :: ws' => forallb (disjoint w) ws' && pairwise_disjoint ws'
  end.

(** The offsets that have a case in the switch of [hb4_write]. *)
Definition has_policy (addr : Z) : bool :=
  (0x04 <=? addr) && (addr <=? 0x05) || (addr =? 0x07)
  || (0x0c <=? addr) && (addr <=? 0x0d) || (0x50 <=? addr) && (addr <=? 0x61).

(** The byte that [hb4_write] leaves at [addr], from the value written and the
    byte stored there before. *)
Definition reg_after (addr v old : Z) : Z :=
  if addr =? 0x07 then u8 (Z.land old (Z.lnot (Z.land v 0xf9)))
  else if addr =? 0x50 then u8 (Z.lor (Z.land v 0xf8) 4)
  else if has_policy addr then u8 v
  else old.

(** The value of [cpu_cache_ext_enabled] after [hb4_write]. *)
Definition cache_after (addr v cache : Z) : Z :=
  if addr =? 0x50 then Z.b2z (nonzero (Z.land v 0x80)) else cache.

(** The machine after the fifteen direct stores that open [hb4_reset]. *)
Definition reset_stores (m : machine) : machine :=
  set_conf (set_conf (set_conf (set_conf (set_conf (set_conf (set_conf
  (set_conf (set_conf (set_conf (set_conf (set_conf (set_conf (set_conf
  (set_conf m 0 0x60) 1 0x10) 2 0x81) 3 0x88) 7 2) 8 4) 0x09 0x00)
  0x0a 0x00) 0x0b 0x06) 0x51 1) 0x52 1) 0x5a 4) 0x5c 0xc0) 0x5d 0x20)
  0x5f 0xff.

(** The offsets that [hb4_reset] writes. *)
Definition reset_writes (addr : Z) : bool :=
  (0x00 <=? addr) && (addr <=? 0x03) || (0x07 <=? addr) && (addr <=? 0x0b)
  || (addr =? 0x51) || (addr =? 0x52) || (addr =? 0x5a) || (addr =? 0x5c)
  || (addr =? 0x5d) || (addr =? 0x5f) || (addr =? 0x60).

(** The state a shadow window gets: RAM for reads when [on], and for writes
    too unless [wp] (bit 6 of register 0x55); otherwise the external bus. *)
Definition shadow_perm (on wp : bool) : mem_state :=
  if on
  then mem_flags MEM_READ_INTERNAL (if wp then MEM_WRITE_EXTANY else MEM_WRITE_INTERNAL)
  else mem_flags MEM_READ_EXTANY MEM_WRITE_EXTANY.

(** The machine that [hb4_reset] returns, given the registers 0x54 and 0x55
    that its shadow run reads. *)
Definition reset_result (m : machine) (r54 r55 : Z) : machine :=
  add_calls
    (set_conf (add_calls (reset_stores m) (shadow_calls r54 r55)) 0x60 0x20)
    (smram_calls (smram (dev (reset_stores m))) 0x20).

(** The sixteen registers that a reset leaves at their defaults. *)
Definition at_defaults (s : machine) : Prop :=
  conf s 0x00 = Some 0x60 /\ conf s 0x01 = Some 0x10 /\ conf s 0x02 = Some 0x81 /\
  conf s 0x03 = Some 0x88 /\ conf s 0x07 = Some 0x02 /\ conf s 0x08 = Some 0x04 /\
  conf s 0x09 = Some 0x00 /\ conf s 0x0a = Some 0x00 /\ conf s 0x0b = Some 0x06 /\
  conf s 0x51 = Some 0x01 /\ conf s 0x52 = Some 0x01 /\ conf s 0x5a = Some 0x04 /\
  conf s 0x5c = Some 0xc0 /\ conf s 0x5d = Some 0x20 /\ conf s 0x5f = Some 0xff /\
  conf s 0x60 = Some 0x20.

(** The bus dispatcher, as far as this device sees it: a sequence of
    configuration writes [(addr, val)], made in order through [hb4_write]. *)
Fixpoint hb4_writes (ws : list (Z * Z)) : M unit :=
  match ws with
  | [] => ret tt
  | (addr, val) :: ws' => hb4_write 0 addr val ;; hb4_writes ws'
  end.

(** The global cache flag agrees with bit 7 (L2 cache enable) of register
    0x50. *)
Definition cache_in_sync (m : machine) : Prop :=
  exists r : Z, conf m 0x50 = Some r /\ cpu_cache_ext_enabled m = Z.b2z (Z.testbit r 7).

(** * Properties *)

(** ** Bits of C conditions *)

Lemma nonzero_land_pow2 (v n : Z) :
  0 <= n -> nonzero (Z.land v (2 ^ n)) = Z.testbit v n.
Proof.
  intros Hn. unfold nonzero.
  destruct (Z.testbit v n) eqn:Hb.
  - apply negb_true_iff, Z.eqb_neq. intros H0.
    assert (Hc : Z.testbit (Z.land v (2 ^ n)) n = true).
    { rewrite Z.land_spec, Hb, Z.pow2_bits_true; auto. }
    rewrite H0, Z.bits_0 in Hc. discriminate.
  - apply negb_false_iff, Z.eqb_eq. apply Z.bits_inj'. intros k Hk.
    rewrite Z.land_spec, Z.bits_0, Z.pow2_bits_eqb by assumption.
    destruct (Z.eqb_spec n k) as [->|_].
    + rewrite Hb. reflexivity.
    + apply andb_false_r.
Qed.

Lemma land_1_bit0 (v : Z) : Z.land v 1 = Z.b2z (Z.testbit v 0).
Proof.
  change 1 with (Z.ones 1). rewrite Z.land_ones by lia.
  rewrite Z.bit0_mod. reflexivity.
Qed.

Lemma u8_byte (z : Z) : is_byte z -> u8 z = z.
Proof. intros H. apply Z.mod_small. exact H. Qed.

Lemma u8_is_byte (z : Z) : is_byte (u8 z).
Proof. unfold is_byte, u8. apply Z.mod_pos_bound. lia. Qed.

(** ** The register array *)

Lemma conf_Some (m : machine) (a x : Z) :
  conf m a = Some x <->
  0 <= a < Z.of_nat (length (pci_conf (dev m))) /\ pci_conf (dev m) !! Z.to_nat a = Some x.
Proof.
  unfold conf.
  destruct (Z.leb_spec 0 a) as [Hlo|Hlo],
    (Z.ltb_spec a (Z.of_nat (length (pci_conf (dev m))))) as [Hhi|Hhi];
    simpl; split; intros Hx; try discriminate; try tauto; try lia.
Qed.

Lemma conf_wf (m : machine) (a : Z) :
  wf m -> 0 <= a < 128 -> exists x, conf m a = Some x /\ is_byte x.
Proof.
  intros [Hlen Hall] Ha.
  destruct (lookup_lt_is_Some_2 (pci_conf (dev m)) (Z.to_nat a)) as [x Hx]; [lia|].
  exists x. split.
  - apply conf_Some. split; [lia | exact Hx].
  - eapply Forall_lookup_1; eassumption.
Qed.

Lemma conf_add_calls (m : machine) (cs : list call) (a : Z) :
  conf (add_calls m cs) a = conf m a.
Proof. reflexivity. Qed.

Lemma conf_set_conf_eq (m : machine) (a v x : Z) :
  conf m a = Some x -> conf (set_conf m a v) a = Some (u8 v).
Proof.
  intros H. apply conf_Some in H as [Ha Hx]. apply conf_Some. cbn.
  rewrite length_insert. split; [exact Ha|].
  apply list_lookup_insert_eq. lia.
Qed.

Lemma conf_set_conf_ne (m : machine) (a b v : Z) :
  0 <= a -> a <> b -> conf (set_conf m a v) b = conf m b.
Proof.
  intros Ha Hab. unfold conf. cbn. rewrite length_insert.
  destruct (Z.leb_spec 0 b); simpl; [|reflexivity].
  destruct (Z.ltb_spec b (Z.of_nat (length (pci_conf (dev m))))); [|reflexivity].
  apply list_lookup_insert_ne. lia.
Qed.

Lemma wf_set_conf (m : machine) (a v : Z) : wf m -> wf (set_conf m a v).
Proof.
  intros [Hlen Hall]. split; cbn.
  - rewrite length_insert. exact Hlen.
  - apply Forall_insert; [exact Hall | apply u8_is_byte].
Qed.

Lemma wf_add_calls (m : machine) (cs : list call) : wf m -> wf (add_calls m cs).
Proof. intros H. exact H. Qed.

Lemma add_calls_app (m : machine) (cs ds : list call) :
  add_calls (add_calls m cs) ds = add_calls m (cs ++ ds).
Proof. unfold add_calls. cbn. rewrite app_assoc. reflexivity. Qed.

Lemma add_calls_nil (m : machine) : add_calls m [] = m.
Proof. destruct m. unfold add_calls. cbn. rewrite app_nil_r. reflexivity. Qed.

(** ** Running monadic code *)

Lemma bind_load {B} (a x : Z) (k : Z -> M B) (m : machine) :
  conf m a = Some x -> bind (load a) k m = k x m.
Proof. intros H. unfold bind, load. rewrite H. reflexivity. Qed.

Lemma bind_store {B} (a v x : Z) (k : unit -> M B) (m : machine) :
  conf m a = Some x -> bind (store a v) k m = k tt (set_conf m a v).
Proof. intros H. unfold bind, store. rewrite H. reflexivity. Qed.

Lemma bind_emit {B} (c : call) (k : unit -> M B) (m : machine) :
  bind (emit c) k m = k tt (add_calls m [c]).
Proof. reflexivity. Qed.

Lemma bind_ok {A B} (c : M A) (k : A -> M B) (m m' : machine) (a : A) :
  c m = Some (a, m') -> bind c k m = k a m'.
Proof. intros H. unfold bind. rewrite H. reflexivity. Qed.

Lemma for_loop_emit (P : machine -> Prop) (body : Z -> M unit) (f : Z -> call) :
  (forall m cs, P m -> P (add_calls m cs)) ->
  (forall j m, P m -> body j m = Some (tt, add_calls m [f j])) ->
  forall n i m, P m ->
    for_loop n i body m = Some (tt, add_calls m (loop_calls n i f)).
Proof.
  intros Hframe Hbody. induction n as [|n IH]; intros i m HP; simpl.
  - unfold ret. rewrite add_calls_nil. reflexivity.
  - rewrite (bind_ok _ _ _ _ _ (Hbody i m HP)).
    rewrite IH by (apply Hframe; exact HP).
    rewrite add_calls_app. reflexivity.
Qed.

(** ** What hb4_shadow and hb4_smram call *)

Lemma hb4_shadow_spec (m : machine) (r54 r55 : Z) :
  conf m 0x54 = Some r54 -> conf m 0x55 = Some r55 ->
  hb4_shadow m = Some (tt, add_calls m (shadow_calls r54 r55)).
Proof.
  intros H54 H55. unfold hb4_shadow.
  rewrite (bind_load 0x55 r55) by exact H55.
  rewrite (bind_load 0x55 r55) by exact H55.
  rewrite bind_emit.
  rewrite (bind_load 0x54 r54) by exact H54.
  unfold shadow_calls. fold (shadow_wr r55).
  set (e := mem_set_mem_state_both 0xe0000 _ _).
  destruct (nonzero (Z.land r54 1)).
  - set (c := mem_set_mem_state_both 0xc0000 0x8000 (if nonzero (Z.land r54 2) then _ else _)).
    match goal with
    | |- bind (bind ?a _) _ _ = _ =>
        assert (Hc : a (add_calls m [e]) = Some (tt, add_calls (add_calls m [e]) [c]))
    end.
    { rewrite (bind_load 0x54 r54) by exact H54. subst c.
      destruct (nonzero (Z.land r54 2)).
      - rewrite (bind_load 0x55 r55) by exact H55. reflexivity.
      - reflexivity. }
    erewrite bind_ok; [|erewrite bind_ok; [|exact Hc]].
    2:{ apply (for_loop_emit
                 (fun m' => conf m' 0x54 = Some r54 /\ conf m' 0x55 = Some r55)
                 _ (window_call r54 r55)).
        - intros m' cs Hm'. exact Hm'.
        - intros j m' [Hj54 Hj55].
          rewrite (bind_load 0x54 r54) by exact Hj54. unfold window_call.
          destruct (nonzero (Z.land (Z.shiftr r54 j) 4)).
          + rewrite (bind_load 0x55 r55) by exact Hj55. reflexivity.
          + reflexivity.
        - split; [exact H54 | exact H55]. }
    unfold emit. rewrite !add_calls_app. reflexivity.
  - rewrite (bind_ok _ _ _ (add_calls m [e]) tt) by reflexivity.
    unfold emit. rewrite !add_calls_app. reflexivity.
Qed.

Lemma hb4_smram_spec (m : machine) (r60 : Z) :
  conf m 0x60 = Some r60 ->
  hb4_smram m = Some (tt, add_calls m (smram_calls (smram (dev m)) r60)).
Proof.
  intros H60. unfold hb4_smram.
  rewrite bind_emit. unfold load_smram at 1.
  rewrite (bind_ok _ _ _ (add_calls m [smram_disable_all]) (smram (dev m))) by reflexivity.
  rewrite (bind_load 0x60 r60) by exact H60.
  rewrite bind_emit.
  rewrite (bind_load 0x60 r60) by exact H60.
  unfold smram_calls.
  destruct (nonzero (Z.land r60 0x20)).
  - rewrite (bind_load 0x60 r60) by exact H60.
    destruct (nonzero (Z.land r60 1)).
    + rewrite bind_emit. unfold emit. rewrite !add_calls_app. reflexivity.
    + unfold bind, ret, emit. rewrite !add_calls_app. reflexivity.
  - unfold ret. rewrite !add_calls_app. reflexivity.
Qed.

(** ** The dispatch of hb4_write *)

(** Splits a register offset below 128 into its 128 values. *)
Ltac each_offset addr :=
  destruct addr as [|addr|addr]; [| |lia];
  [| do 7 (try destruct addr as [addr|addr|])]; try lia.

Lemma hb4_write_dispatch (func addr v : Z) :
  0 <= addr < 128 ->
  ((0x04 <= addr <= 0x05 \/ 0x0c <= addr <= 0x0d \/ 0x51 <= addr <= 0x53 \/
    0x56 <= addr <= 0x5f \/ addr = 0x61) /\
   hb4_write func addr v = store addr v)
  \/ (addr = 0x07 /\
      hb4_write func addr v =
        (old <- load 0x07 ;; store 0x07 (Z.land old (Z.lnot (Z.land v 0xf9)))))
  \/ (addr = 0x50 /\
      hb4_write func addr v =
        (store 0x50 (Z.lor (Z.land v 0xf8) 4) ;;
         set_cpu_cache_ext_enabled (Z.b2z (nonzero (Z.land v 0x80))) ;;
         emit cpu_update_waitstates))
  \/ ((addr = 0x54 \/ addr = 0x55) /\ hb4_write func addr v = (store addr v ;; hb4_shadow))
  \/ (addr = 0x60 /\ hb4_write func addr v = (store 0x60 v ;; hb4_smram))
  \/ (~ (0x04 <= addr <= 0x05 \/ addr = 0x07 \/ 0x0c <= addr <= 0x0d \/
         0x50 <= addr <= 0x61) /\
      hb4_write func addr v = ret tt).
Proof.
  intros Ha. each_offset addr;
    first [ left; split; [lia | reflexivity]
          | right; left; split; reflexivity
          | right; right; left; split; reflexivity
          | right; right; right; left; split; [left; reflexivity | reflexivity]
          | right; right; right; left; split; [right; reflexivity | reflexivity]
          | right; right; right; right; left; split; reflexivity
          | right; right; right; right; right; split; [lia | reflexivity] ].
Qed.

(** ** Bytes under the bit operators *)

Lemma is_byte_land_ff (z : Z) : is_byte z <-> Z.land z 0xff = z.
Proof.
  change 0xff with (Z.ones 8). rewrite Z.land_ones by lia.
  change (2 ^ 8) with 256. unfold is_byte. split.
  - apply Z.mod_small.
  - intros <-. apply Z.mod_pos_bound. lia.
Qed.

Lemma is_byte_land_l (a b : Z) : is_byte a -> is_byte (Z.land a b).
Proof.
  intros Ha. apply is_byte_land_ff in Ha. apply is_byte_land_ff.
  rewrite <- Z.land_assoc, (Z.land_comm b), Z.land_assoc, Ha. reflexivity.
Qed.

Lemma is_byte_cache_size (v : Z) : is_byte (Z.lor (Z.land v 0xf8) 4).
Proof.
  apply is_byte_land_ff.
  rewrite Z.land_lor_distr_l, <- Z.land_assoc. reflexivity.
Qed.

Lemma wf_b_true (m : machine) : wf_b m = true -> wf m.
Proof.
  unfold wf_b, wf. intros H. apply andb_true_iff in H as [Hl Hf]. split.
  - apply Nat.eqb_eq. exact Hl.
  - apply List.Forall_forall. intros z Hz.
    rewrite forallb_forall in Hf. specialize (Hf z Hz).
    apply andb_true_iff in Hf as [H0 H1]. unfold is_byte. lia.
Qed.

(** ** hb4_write is total on a well-formed device *)

Lemma store_ok (m : machine) (a v : Z) :
  wf m -> 0 <= a < 128 -> store a v m = Some (tt, set_conf m a v).
Proof.
  intros Hwf Ha. destruct (conf_wf m a Hwf Ha) as (x & Hx & _).
  unfold store. rewrite Hx. reflexivity.
Qed.

Lemma hb4_write_total (m : machine) (func addr v : Z) :
  wf m -> 0 <= addr < 128 ->
  exists (m' : machine) (x : Z) (cache : Z) (cs : list call),
    hb4_write func addr v m = Some (tt, m') /\
    (m' = mk_machine (dev m) cache (calls m ++ cs) \/
     m' = mk_machine (dev (set_conf m addr x)) cache (calls m ++ cs)).
Proof.
  intros Hwf Ha.
  destruct (hb4_write_dispatch func addr v Ha)
    as [[_ E]|[[-> E]|[[-> E]|[[Hs E]|[[-> E]|[_ E]]]]]]; rewrite E; clear E.
  - exists (set_conf m addr v), v, (cpu_cache_ext_enabled m), [].
    split; [apply store_ok; assumption|]. right. cbn. rewrite app_nil_r. reflexivity.
  - destruct (conf_wf m 7 Hwf Ha) as (old & Hold & _).
    rewrite (bind_load 7 old) by exact Hold.
    eexists _, _, (cpu_cache_ext_enabled m), [].
    split; [apply store_ok; assumption|]. right. cbn. rewrite app_nil_r. reflexivity.
  - rewrite (bind_ok _ _ _ _ _ (store_ok m _ _ Hwf Ha)).
    eexists _, _, _, [cpu_update_waitstates].
    split; [reflexivity|]. right. reflexivity.
  - rewrite (bind_ok _ _ _ _ _ (store_ok m _ _ Hwf Ha)).
    pose proof (wf_set_conf m addr v Hwf) as Hwf'.
    destruct (conf_wf _ 0x54 Hwf') as (r54 & H54 & _); [lia|].
    destruct (conf_wf _ 0x55 Hwf') as (r55 & H55 & _); [lia|].
    rewrite (hb4_shadow_spec _ r54 r55 H54 H55).
    eexists _, v, (cpu_cache_ext_enabled m), (shadow_calls r54 r55).
    split; [reflexivity|]. right. reflexivity.
  - rewrite (bind_ok _ _ _ _ _ (store_ok m _ _ Hwf Ha)).
    pose proof (wf_set_conf m 0x60 v Hwf) as Hwf'.
    destruct (conf_wf _ 0x60 Hwf') as (r60 & H60 & _); [lia|].
    rewrite (hb4_smram_spec _ r60 H60).
    eexists _, v, (cpu_cache_ext_enabled m), _.
    split; [reflexivity|]. right. reflexivity.
  - exists m, 0, (cpu_cache_ext_enabled m), [].
    split; [reflexivity|]. left. destruct m. cbn. rewrite app_nil_r. reflexivity.
Qed.

(** The array keeps its size and its entries stay bytes across a write. *)
Lemma hb4_write_wf (m m' : machine) (func addr v : Z) :
  wf m -> 0 <= addr < 128 ->
  hb4_write func addr v m = Some (tt, m') -> wf m'.
Proof.
  intros Hwf Ha Hrun.
  destruct (hb4_write_total m func addr v Hwf Ha) as (m2 & x & cache & cs & Hrun2 & Hm2).
  rewrite Hrun in Hrun2. injection Hrun2 as <-.
  destruct Hm2 as [-> | ->].
  - exact Hwf.
  - exact (wf_set_conf m addr x Hwf).
Qed.

(** * The register store *)

(** C4: for every byte [v], [write(0x50, v)] stores [(v & 0xF8) | 0x04], so
    the next [read(0x50)] returns that value, and its bits 0 to 2 are the
    fixed pattern 100 whatever the low bits of [v] were. *)
Theorem hb4_write_0x50_cache_size (m : machine) (func v : Z) :
  wf m -> is_byte v ->
  exists m' : machine,
    hb4_write func 0x50 v m = Some (tt, m') /\
    hb4_read func 0x50 m' = Some (Z.lor (Z.land v 0xf8) 0x04, m') /\
    Z.testbit (Z.lor (Z.land v 0xf8) 0x04) 0 = false /\
    Z.testbit (Z.lor (Z.land v 0xf8) 0x04) 1 = false /\
    Z.testbit (Z.lor (Z.land v 0xf8) 0x04) 2 = true.
Proof.
  intros Hwf Hv.
  destruct (conf_wf m 0x50 Hwf) as (x & Hx & _); [lia|].
  eexists. split.
  - change (hb4_write func 0x50 v)
      with (store 0x50 (Z.lor (Z.land v 0xf8) 4) ;;
            set_cpu_cache_ext_enabled (Z.b2z (nonzero (Z.land v 0x80))) ;;
            emit cpu_update_waitstates).
    rewrite (bind_store 0x50 _ x) by exact Hx. reflexivity.
  - split.
    + unfold hb4_read, load.
      change (conf ?m' 0x50) with (conf (set_conf m 0x50 (Z.lor (Z.land v 0xf8) 4)) 0x50).
      rewrite (conf_set_conf_eq m 0x50 _ x Hx).
      rewrite u8_byte by apply is_byte_cache_size. reflexivity.
    + rewrite !Z.lor_spec, !Z.land_spec.
      change (Z.testbit 248 0) with false. change (Z.testbit 248 1) with false.
      change (Z.testbit 4 0) with false. change (Z.testbit 4 1) with false.
      change (Z.testbit 4 2) with true.
      rewrite !andb_false_r, orb_true_r. auto.
Qed.

Lemma hb4_write_0x50_cache_size_witness :
  wf m_init /\ is_byte 0xff /\
  exists m' : machine,
    hb4_write 0 0x50 0xff m_init = Some (tt, m') /\
    hb4_read 0 0x50 m' = Some (Z.lor (Z.land 0xff 0xf8) 0x04, m') /\
    Z.testbit (Z.lor (Z.land 0xff 0xf8) 0x04) 0 = false /\
    Z.testbit (Z.lor (Z.land 0xff 0xf8) 0x04) 1 = false /\
    Z.testbit (Z.lor (Z.land 0xff 0xf8) 0x04) 2 = true.
Proof.
  assert (Hwf : wf m_init) by (apply wf_b_true; vm_compute; reflexivity).
  assert (Hv : is_byte 0xff) by (unfold is_byte; lia).
  split; [exact Hwf|]. split; [exact Hv|].
  apply (hb4_write_0x50_cache_size m_init 0 0xff Hwf Hv).
Defined.

(** C6: for every stored byte [old] and every byte [v], [write(0x07, v)]
    leaves register 0x07 holding [old & ~(v & 0xF9)]: bits 0 and 3 to 7 are
    cleared where [v] has a one, bits 1 and 2 keep their value. *)
Theorem hb4_write_0x07_clear (m : machine) (func old v : Z) :
  wf m -> is_byte v -> conf m 0x07 = Some old ->
  exists m' : machine,
    hb4_write func 0x07 v m = Some (tt, m') /\
    hb4_read func 0x07 m' = Some (Z.land old (Z.lnot (Z.land v 0xf9)), m') /\
    forall k : Z, 0 <= k < 8 ->
      Z.testbit (Z.land old (Z.lnot (Z.land v 0xf9))) k =
      if (k =? 1) || (k =? 2) then Z.testbit old k
      else Z.testbit old k && negb (Z.testbit v k).
Proof.
  intros Hwf Hv Hold.
  assert (Hb : is_byte old).
  { destruct (conf_wf m 7 Hwf) as (x & Hx & Hbx); [lia|]. congruence. }
  eexists. split.
  - change (hb4_write func 0x07 v)
      with (o <- load 0x07 ;; store 0x07 (Z.land o (Z.lnot (Z.land v 0xf9)))).
    rewrite (bind_load 7 old) by exact Hold.
    unfold store. rewrite Hold. reflexivity.
  - split.
    + unfold hb4_read, load. rewrite (conf_set_conf_eq m 7 _ old Hold).
      rewrite u8_byte by (apply is_byte_land_l; exact Hb). reflexivity.
    + intros k Hk.
      rewrite Z.land_spec, Z.lnot_spec, Z.land_spec by lia.
      assert (Hc : k = 0 \/ k = 1 \/ k = 2 \/ k = 3 \/ k = 4 \/ k = 5 \/ k = 6 \/ k = 7) by lia.
      destruct Hc as [->|[->|[->|[->|[->|[->|[->| ->]]]]]]];
        match goal with
        | |- context [Z.testbit 249 ?i] =>
            let b := eval vm_compute in (Z.testbit 249 i) in
            change (Z.testbit 249 i) with b
        end;
        cbn [Z.eqb orb];
        rewrite ?andb_false_r, ?andb_true_r; reflexivity.
Qed.

Lemma hb4_write_0x07_clear_witness :
  wf m_init /\ is_byte 0xff /\ conf m_init 0x07 = Some 2 /\
  exists m' : machine,
    hb4_write 0 0x07 0xff m_init = Some (tt, m') /\
    hb4_read 0 0x07 m' = Some (Z.land 2 (Z.lnot (Z.land 0xff 0xf9)), m') /\
    forall k : Z, 0 <= k < 8 ->
      Z.testbit (Z.land 2 (Z.lnot (Z.land 0xff 0xf9))) k =
      if (k =? 1) || (k =? 2) then Z.testbit 2 k
      else Z.testbit 2 k && negb (Z.testbit 0xff k).
Proof.
  assert (Hwf : wf m_init) by (apply wf_b_true; vm_compute; reflexivity).
  assert (Hv : is_byte 0xff) by (unfold is_byte; lia).
  assert (Hold : conf m_init 0x07 = Some 2) by (vm_compute; reflexivity).
  split; [exact Hwf|]. split; [exact Hv|]. split; [exact Hold|].
  apply (hb4_write_0x07_clear m_init 0 2 0xff Hwf Hv Hold).
Defined.

(** C7: for every offset whose policy is to store the value as it is
    (0x04-0x05, 0x0C-0x0D, 0x51-0x53, 0x54-0x55, 0x56-0x5F, 0x60, 0x61) and
    every byte [v], [write(offset, v)] followed by [read(offset)] returns
    [v]: reads apply no mask. *)
Theorem hb4_write_read_pass_through (m : machine) (func addr v : Z) :
  wf m -> is_byte v ->
  (0x04 <= addr <= 0x05 \/ 0x0c <= addr <= 0x0d \/ 0x51 <= addr <= 0x53 \/
   0x54 <= addr <= 0x55 \/ 0x56 <= addr <= 0x5f \/ addr = 0x60 \/ addr = 0x61) ->
  exists m' : machine,
    hb4_write func addr v m = Some (tt, m') /\
    hb4_read func addr m' = Some (v, m').
Proof.
  intros Hwf Hv Hrange.
  assert (Ha : 0 <= addr < 128) by lia.
  destruct (conf_wf m addr Hwf Ha) as (x & Hx & _).
  pose proof (conf_set_conf_eq m addr v x Hx) as Hnew.
  rewrite (u8_byte v Hv) in Hnew.
  pose proof (wf_set_conf m addr v Hwf) as Hwf'.
  destruct (hb4_write_dispatch func addr v Ha)
    as [[_ E]|[[-> _]|[[-> _]|[[_ E]|[[-> E]|[Hno _]]]]]]; try lia; rewrite E; clear E.
  - exists (set_conf m addr v). split.
    + apply store_ok; assumption.
    + unfold hb4_read, load. rewrite Hnew. reflexivity.
  - rewrite (bind_ok _ _ _ _ _ (store_ok m _ _ Hwf Ha)).
    destruct (conf_wf _ 0x54 Hwf') as (r54 & H54 & _); [lia|].
    destruct (conf_wf _ 0x55 Hwf') as (r55 & H55 & _); [lia|].
    rewrite (hb4_shadow_spec _ r54 r55 H54 H55).
    eexists. split; [reflexivity|].
    unfold hb4_read, load. rewrite conf_add_calls, Hnew. reflexivity.
  - rewrite (bind_ok _ _ _ _ _ (store_ok m _ _ Hwf Ha)).
    rewrite (hb4_smram_spec _ v Hnew).
    eexists. split; [reflexivity|].
    unfold hb4_read, load. rewrite conf_add_calls, Hnew. reflexivity.
Qed.

Lemma hb4_write_read_pass_through_witness :
  wf m_init /\ is_byte 0xa5 /\
  (0x04 <= 0x55 <= 0x05 \/ 0x0c <= 0x55 <= 0x0d \/ 0x51 <= 0x55 <= 0x53 \/
   0x54 <= 0x55 <= 0x55 \/ 0x56 <= 0x55 <= 0x5f \/ 0x55 = 0x60 \/ 0x55 = 0x61) /\
  exists m' : machine,
    hb4_write 0 0x55 0xa5 m_init = Some (tt, m') /\
    hb4_read 0 0x55 m' = Some (0xa5, m').
Proof.
  assert (Hwf : wf m_init) by (apply wf_b_true; vm_compute; reflexivity).
  assert (Hv : is_byte 0xa5) by (unfold is_byte; lia).
  assert (Hr : 0x04 <= 0x55 <= 0x05 \/ 0x0c <= 0x55 <= 0x0d \/ 0x51 <= 0x55 <= 0x53 \/
               0x54 <= 0x55 <= 0x55 \/ 0x56 <= 0x55 <= 0x5f \/ 0x55 = 0x60 \/ 0x55 = 0x61)
    by lia.
  split; [exact Hwf|]. split; [exact Hv|]. split; [exact Hr|].
  apply (hb4_write_read_pass_through m_init 0 0x55 0xa5 Hwf Hv Hr).
Defined.

(** C8: for every offset in 0..127 without a write policy (outside 0x04-0x05,
    0x07, 0x0C-0x0D, 0x50-0x5F, 0x60-0x61) and every value, [write] returns
    normally and leaves the whole machine as it was: no stored byte changes,
    the cache flag keeps its value and no collaborator is called. *)
Theorem hb4_write_no_policy (m : machine) (func addr v : Z) :
  0 <= addr < 128 ->
  ~ (0x04 <= addr <= 0x05 \/ addr = 0x07 \/ 0x0c <= addr <= 0x0d \/
     0x50 <= addr <= 0x5f \/ 0x60 <= addr <= 0x61) ->
  hb4_write func addr v m = Some (tt, m).
Proof.
  intros Ha Hno.
  destruct (hb4_write_dispatch func addr v Ha)
    as [[Hr _]|[[-> _]|[[-> _]|[[Hr _]|[[-> _]|[_ E]]]]]]; try lia.
  rewrite E. reflexivity.
Qed.

Lemma hb4_write_no_policy_witness :
  0 <= 0x40 < 128 /\
  ~ (0x04 <= 0x40 <= 0x05 \/ 0x40 = 0x07 \/ 0x0c <= 0x40 <= 0x0d \/
     0x50 <= 0x40 <= 0x5f \/ 0x60 <= 0x40 <= 0x61) /\
  hb4_write 0 0x40 0xff m_init = Some (tt, m_init).
Proof.
  assert (Ha : 0 <= 0x40 < 128) by lia.
  assert (Hno : ~ (0x04 <= 0x40 <= 0x05 \/ 0x40 = 0x07 \/ 0x0c <= 0x40 <= 0x0d \/
                   0x50 <= 0x40 <= 0x5f \/ 0x60 <= 0x40 <= 0x61)) by lia.
  split; [exact Ha|]. split; [exact Hno|].
  apply (hb4_write_no_policy m_init 0 0x40 0xff Ha Hno).
Defined.

(** C10: for every offset in 0..127 and every value [v], [write(offset, v)]
    returns normally and changes at most the stored byte at that offset:
    every other entry of the configuration array, and its size, are as
    before. *)
Theorem hb4_write_frame (m : machine) (func addr v : Z) :
  wf m -> 0 <= addr < 128 ->
  exists m' : machine,
    hb4_write func addr v m = Some (tt, m') /\
    length (pci_conf (dev m')) = 128%nat /\
    forall b : Z, b <> addr -> conf m' b = conf m b.
Proof.
  intros Hwf Ha.
  destruct (hb4_write_total m func addr v Hwf Ha) as (m' & x & cache & cs & Hrun & Hm').
  exists m'. split; [exact Hrun|].
  destruct Hm' as [-> | ->].
  - split; [apply Hwf|]. intros b _. reflexivity.
  - split; [apply (wf_set_conf m addr x Hwf)|].
    intros b Hb. apply (conf_set_conf_ne m addr b x); lia.
Qed.

Lemma hb4_write_frame_witness :
  wf m_init /\ 0 <= 0x54 < 128 /\
  exists m' : machine,
    hb4_write 0 0x54 0xff m_init = Some (tt, m') /\
    length (pci_conf (dev m')) = 128%nat /\
    forall b : Z, b <> 0x54 -> conf m' b = conf m_init b.
Proof.
  assert (Hwf : wf m_init) by (apply wf_b_true; vm_compute; reflexivity).
  assert (Ha : 0 <= 0x54 < 128) by lia.
  split; [exact Hwf|]. split; [exact Ha|].
  apply (hb4_write_frame m_init 0 0x54 0xff Hwf Ha).
Defined.

(** * The SMRAM controller *)

(** C2: for every byte [v], [write(0x60, v)] first disables every SMRAM
    mapping, then enables the fixed region (guest base 0xA0000, host base
    0xA0000, length 0x20000), visible outside SMM iff bit 0 of [v] is set and
    always visible inside SMM; when bit 5 of [v] is set it gives alias 1
    routing mode 0x02 for that region, and alias 0 as well only when bit 0 is
    also set; when bit 5 is clear it makes no alias call. *)
Theorem hb4_write_0x60_smram (m : machine) (func v : Z) :
  wf m -> is_byte v ->
  exists m' : machine,
    hb4_write func 0x60 v m = Some (tt, m') /\
    calls m' =
      calls m ++
      smram_disable_all
      :: smram_enable (smram (dev m)) 0xa0000 0xa0000 0x20000 (Z.b2z (Z.testbit v 0)) 1
      :: (if Z.testbit v 5
          then (if Z.testbit v 0
                then [mem_set_mem_state_smram_ex 0 0xa0000 0x20000 0x02]
                else [])
               ++ [mem_set_mem_state_smram_ex 1 0xa0000 0x20000 0x02]
          else []).
Proof.
  intros Hwf Hv.
  assert (Ha : 0 <= 0x60 < 128) by lia.
  destruct (conf_wf m 0x60 Hwf Ha) as (x & Hx & _).
  pose proof (conf_set_conf_eq m 0x60 v x Hx) as Hnew.
  rewrite (u8_byte v Hv) in Hnew.
  change (hb4_write func 0x60 v) with (store 0x60 v ;; hb4_smram).
  rewrite (bind_ok _ _ _ _ _ (store_ok m _ _ Hwf Ha)).
  rewrite (hb4_smram_spec _ v Hnew).
  eexists. split; [reflexivity|].
  unfold smram_calls. cbn [calls add_calls set_conf dev smram].
  rewrite land_1_bit0.
  change (Z.land v 32) with (Z.land v (2 ^ 5)).
  rewrite nonzero_land_pow2 by lia.
  destruct (Z.testbit v 0); reflexivity.
Qed.

Lemma hb4_write_0x60_smram_witness :
  wf m_init /\ is_byte 0x21 /\
  exists m' : machine,
    hb4_write 0 0x60 0x21 m_init = Some (tt, m') /\
    calls m' =
      calls m_init ++
      smram_disable_all
      :: smram_enable (smram (dev m_init)) 0xa0000 0xa0000 0x20000 (Z.b2z (Z.testbit 0x21 0)) 1
      :: (if Z.testbit 0x21 5
          then (if Z.testbit 0x21 0
                then [mem_set_mem_state_smram_ex 0 0xa0000 0x20000 0x02]
                else [])
               ++ [mem_set_mem_state_smram_ex 1 0xa0000 0x20000 0x02]
          else []).
Proof.
  assert (Hwf : wf m_init) by (apply wf_b_true; vm_compute; reflexivity).
  assert (Hv : is_byte 0x21) by (unfold is_byte; lia).
  split; [exact Hwf|]. split; [exact Hv|].
  apply (hb4_write_0x60_smram m_init 0 0x21 Hwf Hv).
Defined.

(** * The shadow-region controller *)

(** C9: what [hb4_shadow] calls is a function of registers 0x54 and 0x55
    alone: on two machines that agree on those two registers it makes the
    same calls, in the same order, and run a second time it makes the same
    calls again; it leaves the device as it was. *)
Theorem hb4_shadow_pure (m1 m2 : machine) (r54 r55 : Z) :
  conf m1 0x54 = Some r54 -> conf m1 0x55 = Some r55 ->
  conf m2 0x54 = Some r54 -> conf m2 0x55 = Some r55 ->
  exists (cs : list call) (m1' m2' m1'' : machine),
    hb4_shadow m1 = Some (tt, m1') /\ calls m1' = calls m1 ++ cs /\
    hb4_shadow m2 = Some (tt, m2') /\ calls m2' = calls m2 ++ cs /\
    hb4_shadow m1' = Some (tt, m1'') /\ calls m1'' = calls m1' ++ cs /\
    dev m1' = dev m1 /\ dev m2' = dev m2.
Proof.
  intros H1 H1' H2 H2'.
  exists (shadow_calls r54 r55).
  exists (add_calls m1 (shadow_calls r54 r55)), (add_calls m2 (shadow_calls r54 r55)).
  exists (add_calls (add_calls m1 (shadow_calls r54 r55)) (shadow_calls r54 r55)).
  repeat split.
  - apply hb4_shadow_spec; assumption.
  - apply hb4_shadow_spec; assumption.
  - apply hb4_shadow_spec; assumption.
Qed.

Lemma hb4_shadow_pure_witness :
  conf m_init 0x54 = Some 0 /\ conf m_init 0x55 = Some 0 /\
  conf (set_conf m_init 0x50 0x84) 0x54 = Some 0 /\
  conf (set_conf m_init 0x50 0x84) 0x55 = Some 0 /\
  exists (cs : list call) (m1' m2' m1'' : machine),
    hb4_shadow m_init = Some (tt, m1') /\ calls m1' = calls m_init ++ cs /\
    hb4_shadow (set_conf m_init 0x50 0x84) = Some (tt, m2') /\
    calls m2' = calls (set_conf m_init 0x50 0x84) ++ cs /\
    hb4_shadow m1' = Some (tt, m1'') /\ calls m1'' = calls m1' ++ cs /\
    dev m1' = dev m_init /\ dev m2' = dev (set_conf m_init 0x50 0x84).
Proof.
  assert (H1 : conf m_init 0x54 = Some 0) by (vm_compute; reflexivity).
  assert (H2 : conf m_init 0x55 = Some 0) by (vm_compute; reflexivity).
  assert (H3 : conf (set_conf m_init 0x50 0x84) 0x54 = Some 0) by (vm_compute; reflexivity).
  assert (H4 : conf (set_conf m_init 0x50 0x84) 0x55 = Some 0) by (vm_compute; reflexivity).
  split; [exact H1|]. split; [exact H2|]. split; [exact H3|]. split; [exact H4|].
  apply (hb4_shadow_pure m_init (set_conf m_init 0x50 0x84) 0 0 H1 H2 H3 H4).
Defined.

Lemma hb4_write_shadow_run (m : machine) (func addr v : Z) :
  wf m -> is_byte v -> addr = 0x54 \/ addr = 0x55 ->
  exists r54 r55 : Z,
    conf (set_conf m addr v) 0x54 = Some r54 /\
    conf (set_conf m addr v) 0x55 = Some r55 /\
    conf (set_conf m addr v) addr = Some v /\
    hb4_write func addr v m =
      Some (tt, add_calls (set_conf m addr v) (shadow_calls r54 r55)).
Proof.
  intros Hwf Hv Haddr.
  assert (Ha : 0 <= addr < 128) by lia.
  destruct (conf_wf m addr Hwf Ha) as (x & Hx & _).
  pose proof (conf_set_conf_eq m addr v x Hx) as Hnew.
  rewrite (u8_byte v Hv) in Hnew.
  pose proof (wf_set_conf m addr v Hwf) as Hwf'.
  destruct (conf_wf _ 0x54 Hwf') as (r54 & H54 & _); [lia|].
  destruct (conf_wf _ 0x55 Hwf') as (r55 & H55 & _); [lia|].
  exists r54, r55. repeat split; try assumption.
  assert (E : hb4_write func addr v = (store addr v ;; hb4_shadow))
    by (destruct Haddr as [-> | ->]; reflexivity).
  rewrite E, (bind_ok _ _ _ _ _ (store_ok m _ _ Hwf Ha)).
  apply hb4_shadow_spec; assumption.
Qed.

(** C3: a write to 0x54 or 0x55 always applies the window at 0xE0000 of
    length 0x20000 first.  With bit 0 of register 0x54 clear, no other window
    is touched.  With bit 0 set, the window at 0xC0000 of length 0x8000 is
    applied next: read mode Internal with the write mode chosen by bit 6 of
    register 0x55 when bit 1 of register 0x54 is set, and (ExternalAny,
    ExternalAny) when bit 1 is clear.  In particular, after [write(0x54,
    0x01)] then [write(0x55, 0x00)] the window at 0xC0000 gets (ExternalAny,
    ExternalAny). *)
Theorem hb4_write_shadow_windows (m : machine) (func addr v : Z) :
  wf m -> is_byte v -> addr = 0x54 \/ addr = 0x55 ->
  (exists (m' : machine) (r54 r55 : Z) (rest : list call),
     hb4_write func addr v m = Some (tt, m') /\
     conf m' addr = Some v /\ conf m' 0x54 = Some r54 /\ conf m' 0x55 = Some r55 /\
     calls m' =
       calls m ++
       mem_set_mem_state_both 0xe0000 0x20000
         (mem_flags (if Z.testbit r55 7 then MEM_READ_INTERNAL else MEM_READ_EXTANY)
                    (if Z.testbit r55 6 then MEM_WRITE_EXTANY else MEM_WRITE_INTERNAL))
       :: rest /\
     (Z.testbit r54 0 = false -> rest = [flushmmucache_nopc]) /\
     (Z.testbit r54 0 = true ->
      exists rest' : list call,
        rest =
          mem_set_mem_state_both 0xc0000 0x8000
            (if Z.testbit r54 1
             then mem_flags MEM_READ_INTERNAL
                    (if Z.testbit r55 6 then MEM_WRITE_EXTANY else MEM_WRITE_INTERNAL)
             else mem_flags MEM_READ_EXTANY MEM_WRITE_EXTANY)
          :: rest'))
  /\
  (exists m1 m2 : machine,
     hb4_write func 0x54 0x01 m = Some (tt, m1) /\
     hb4_write func 0x55 0x00 m1 = Some (tt, m2) /\
     calls m2 =
       calls m1 ++
       [ mem_set_mem_state_both 0xe0000 0x20000 (mem_flags MEM_READ_EXTANY MEM_WRITE_INTERNAL);
         mem_set_mem_state_both 0xc0000 0x8000 (mem_flags MEM_READ_EXTANY MEM_WRITE_EXTANY);
         mem_set_mem_state_both 0xc8000 0x8000 (mem_flags MEM_READ_EXTANY MEM_WRITE_EXTANY);
         mem_set_mem_state_both 0xcc000 0x8000 (mem_flags MEM_READ_EXTANY MEM_WRITE_EXTANY);
         mem_set_mem_state_both 0xd0000 0x8000 (mem_flags MEM_READ_EXTANY MEM_WRITE_EXTANY);
         mem_set_mem_state_both 0xd4000 0x8000 (mem_flags MEM_READ_EXTANY MEM_WRITE_EXTANY);
         mem_set_mem_state_both 0xd8000 0x8000 (mem_flags MEM_READ_EXTANY MEM_WRITE_EXTANY);
         flushmmucache_nopc ]).
Proof.
  intros Hwf Hv Haddr. split.
  - destruct (hb4_write_shadow_run m func addr v Hwf Hv Haddr)
      as (r54 & r55 & H54 & H55 & Hnew & Hrun).
    eexists _, r54, r55, _. split; [exact Hrun|].
    split; [exact Hnew|]. split; [exact H54|]. split; [exact H55|].
    unfold shadow_calls, shadow_wr. cbn [calls add_calls set_conf].
    change (Z.land r55 128) with (Z.land r55 (2 ^ 7)).
    change (Z.land r55 64) with (Z.land r55 (2 ^ 6)).
    change (Z.land r54 1) with (Z.land r54 (2 ^ 0)).
    change (Z.land r54 2) with (Z.land r54 (2 ^ 1)).
    rewrite !nonzero_land_pow2 by lia.
    split; [reflexivity|]. split; intros Hb; rewrite Hb.
    + reflexivity.
    + eexists. reflexivity.
  - assert (Hb1 : is_byte 1) by (unfold is_byte; lia).
    assert (Hb0 : is_byte 0) by (unfold is_byte; lia).
    destruct (hb4_write_shadow_run m func 0x54 1 Hwf Hb1 (or_introl eq_refl))
      as (r54 & r55 & _ & _ & H54 & Hrun1).
    set (m1 := add_calls (set_conf m 0x54 1) (shadow_calls r54 r55)) in *.
    assert (Hwf1 : wf m1) by (apply wf_add_calls, wf_set_conf; exact Hwf).
    destruct (hb4_write_shadow_run m1 func 0x55 0 Hwf1 Hb0 (or_intror eq_refl))
      as (s54 & s55 & G54 & G55 & Gnew & Hrun2).
    rewrite conf_set_conf_ne in G54 by lia.
    change (conf m1 0x54) with (conf (set_conf m 0x54 1) 0x54) in G54.
    assert (s54 = 1) by congruence. assert (s55 = 0) by congruence. subst s54 s55.
    exists m1, (add_calls (set_conf m1 0x55 0) (shadow_calls 1 0)).
    split; [exact Hrun1|]. split; [exact Hrun2|]. reflexivity.
Qed.

Lemma hb4_write_shadow_windows_witness :
  wf m_init /\ is_byte 0x03 /\ (0x54 = 0x54 \/ 0x54 = 0x55) /\
  exists (m' : machine) (r54 r55 : Z) (rest : list call),
    hb4_write 0 0x54 0x03 m_init = Some (tt, m') /\
    conf m' 0x54 = Some 0x03 /\ conf m' 0x54 = Some r54 /\ conf m' 0x55 = Some r55 /\
    calls m' =
      calls m_init ++
      mem_set_mem_state_both 0xe0000 0x20000
        (mem_flags (if Z.testbit r55 7 then MEM_READ_INTERNAL else MEM_READ_EXTANY)
                   (if Z.testbit r55 6 then MEM_WRITE_EXTANY else MEM_WRITE_INTERNAL))
      :: rest /\
    (Z.testbit r54 0 = false -> rest = [flushmmucache_nopc]) /\
    (Z.testbit r54 0 = true ->
     exists rest' : list call,
       rest =
         mem_set_mem_state_both 0xc0000 0x8000
           (if Z.testbit r54 1
            then mem_flags MEM_READ_INTERNAL
                   (if Z.testbit r55 6 then MEM_WRITE_EXTANY else MEM_WRITE_INTERNAL)
            else mem_flags MEM_READ_EXTANY MEM_WRITE_EXTANY)
         :: rest').
Proof.
  assert (Hwf : wf m_init) by (apply wf_b_true; vm_compute; reflexivity).
  assert (Hv : is_byte 0x03) by (unfold is_byte; lia).
  assert (Ha : 0x54 = 0x54 \/ 0x54 = 0x55) by (left; reflexivity).
  split; [exact Hwf|]. split; [exact Hv|]. split; [exact Ha|].
  apply (proj1 (hb4_write_shadow_windows m_init 0 0x54 0x03 Hwf Hv Ha)).
Defined.

(** ** The address ranges of the shadow windows *)

Lemma disjoint_spec (w1 w2 : Z * Z) :
  0 < snd w1 -> 0 < snd w2 ->
  disjoint w1 w2 = true <->
  ~ exists a : Z, fst w1 <= a < fst w1 + snd w1 /\ fst w2 <= a < fst w2 + snd w2.
Proof.
  intros H1 H2. unfold disjoint. rewrite orb_true_iff, !Z.leb_le. split.
  - intros Hd [a Ha]. lia.
  - intros Hn.
    destruct (Z_le_gt_dec (fst w1 + snd w1) (fst w2)) as [Hle|Hgt]; [left; exact Hle|].
    destruct (Z_le_gt_dec (fst w2 + snd w2) (fst w1)) as [Hle'|Hgt']; [right; exact Hle'|].
    exfalso. apply Hn. exists (Z.max (fst w1) (fst w2)). lia.
Qed.

(** The windows of one [hb4_shadow] run depend on bit 0 of register 0x54 only. *)
Lemma windows_shadow_calls (r54 r55 : Z) :
  windows (shadow_calls r54 r55) =
  if Z.testbit r54 0
  then [ (0xe0000, 0x20000); (0xc0000, 0x8000); (0xc8000, 0x8000); (0xcc000, 0x8000);
         (0xd0000, 0x8000); (0xd4000, 0x8000); (0xd8000, 0x8000) ]
  else [ (0xe0000, 0x20000) ].
Proof.
  unfold shadow_calls.
  change (Z.land r54 1) with (Z.land r54 (2 ^ 0)).
  rewrite nonzero_land_pow2 by lia.
  destruct (Z.testbit r54 0); reflexivity.
Qed.

(** The 0xE0000 and 0xC0000 windows share no address with any other window;
    among the five windows of the loop, neighbours share 16KB. *)
Lemma shadow_windows_overlap (r54 r55 : Z) :
  Z.testbit r54 0 = true ->
  pairwise_disjoint (windows (shadow_calls r54 r55)) = false /\
  forallb (disjoint (0xe0000, 0x20000)) (tl (windows (shadow_calls r54 r55))) = true /\
  forallb (disjoint (0xc0000, 0x8000)) (tl (tl (windows (shadow_calls r54 r55)))) = true /\
  forall i j : Z, 0 <= i < 5 -> 0 <= j < 5 ->
    disjoint (0xc8000 + Z.shiftl i 14, 0x8000) (0xc8000 + Z.shiftl j 14, 0x8000) =
    negb ((j - i <? 2) && (i - j <? 2)).
Proof.
  intros Hb. rewrite windows_shadow_calls, Hb.
  split; [reflexivity|]. split; [reflexivity|]. split; [reflexivity|].
  intros i j Hi Hj. unfold disjoint. cbn [fst snd].
  rewrite !Z.shiftl_mul_pow2 by lia. change (2 ^ 14) with 16384.
  destruct (Z.ltb_spec (j - i) 2), (Z.ltb_spec (i - j) 2); cbn [andb negb];
    rewrite ?orb_true_iff, ?orb_false_iff, ?Z.leb_le, ?Z.leb_gt; lia.
Qed.

(** C5 (the code at [write(0x54, 0x05)]): the run applies the seven windows;
    the 32KB window at 0xC8000 and the 32KB window at 0xCC000 both hold
    address 0xCC000, which first gets (Internal, Internal) from bit 2 and is
    then overridden with (ExternalAny, ExternalAny) from bit 3: the windows
    are not pairwise disjoint. *)
Theorem hb4_shadow_windows_not_disjoint :
  exists (m' : machine) (cs : list call),
    hb4_write 0 0x54 0x05 m_init = Some (tt, m') /\
    calls m' = calls m_init ++ cs /\
    windows cs =
      [ (0xe0000, 0x20000); (0xc0000, 0x8000); (0xc8000, 0x8000); (0xcc000, 0x8000);
        (0xd0000, 0x8000); (0xd4000, 0x8000); (0xd8000, 0x8000) ] /\
    pairwise_disjoint (windows cs) = false /\
    disjoint (0xc8000, 0x8000) (0xcc000, 0x8000) = false /\
    covering 0xcc000 cs =
      [ mem_flags MEM_READ_INTERNAL MEM_WRITE_INTERNAL;
        mem_flags MEM_READ_EXTANY MEM_WRITE_EXTANY ].
Proof.
  eexists _, _. split; [vm_compute; reflexivity|].
  split; [reflexivity|]. repeat split.
Qed.

(** * Reset *)

Lemma bind_store_wf {B} (a v : Z) (k : unit -> M B) (m : machine) :
  wf m -> 0 <= a < 128 -> bind (store a v) k m = k tt (set_conf m a v).
Proof. intros Hwf Ha. apply bind_ok, store_ok; assumption. Qed.

Lemma conf_set_conf_eq_wf (m : machine) (a v : Z) :
  wf m -> 0 <= a < 128 -> conf (set_conf m a v) a = Some (u8 v).
Proof.
  intros Hwf Ha. destruct (conf_wf m a Hwf Ha) as (x & Hx & _).
  apply (conf_set_conf_eq m a v x Hx).
Qed.

Ltac solve_wf := repeat first [apply wf_set_conf | apply wf_add_calls]; assumption.

(** Looks a register up through the stores made after it was last written. *)
Ltac conf_after_stores :=
  repeat first [rewrite conf_add_calls | rewrite conf_set_conf_ne by lia];
  rewrite conf_set_conf_eq_wf by first [lia | solve_wf];
  reflexivity.

(** C1: [reset()] returns with the identity bytes in place ([read(0x00)] is
    0x60, [read(0x01)] 0x10, [read(0x02)] 0x81, [read(0x03)] 0x88,
    [read(0x51)] 0x01, [read(0x5F)] 0xFF).  It stores its defaults directly,
    then runs the shadow-region controller once, then performs
    [write(0x60, 0x20)] through [hb4_write]; that write disables all SMRAM
    mappings and enables SMRAM at base 0xA0000 with length 0x20000, visible
    in SMM. *)
Theorem hb4_reset_spec (m : machine) :
  wf m ->
  exists (m' m_mid m_sh : machine) (cs : list call),
    hb4_reset m = Some (tt, m') /\
    hb4_read 0 0x00 m' = Some (0x60, m') /\
    hb4_read 0 0x01 m' = Some (0x10, m') /\
    hb4_read 0 0x02 m' = Some (0x81, m') /\
    hb4_read 0 0x03 m' = Some (0x88, m') /\
    hb4_read 0 0x51 m' = Some (0x01, m') /\
    hb4_read 0 0x5f m' = Some (0xff, m') /\
    hb4_shadow m = Some (tt, m_sh) /\ calls m_sh = calls m ++ cs /\
    calls m_mid = calls m ++ cs /\
    conf m_mid 0x07 = Some 0x02 /\ conf m_mid 0x08 = Some 0x04 /\
    conf m_mid 0x0b = Some 0x06 /\ conf m_mid 0x52 = Some 0x01 /\
    conf m_mid 0x5a = Some 0x04 /\ conf m_mid 0x5c = Some 0xc0 /\
    conf m_mid 0x5d = Some 0x20 /\
    hb4_write 0 0x60 0x20 m_mid = Some (tt, m') /\
    conf m' 0x60 = Some 0x20 /\
    calls m' =
      calls m ++ cs ++
      [ smram_disable_all;
        smram_enable (smram (dev m)) 0xa0000 0xa0000 0x20000 0 1;
        mem_set_mem_state_smram_ex 1 0xa0000 0x20000 0x02 ].
Proof.
  intros Hwf.
  destruct (conf_wf m 0x54 Hwf) as (r54 & H54 & _); [lia|].
  destruct (conf_wf m 0x55 Hwf) as (r55 & H55 & _); [lia|].
  set (m15 := set_conf (set_conf (set_conf (set_conf (set_conf (set_conf (set_conf
              (set_conf (set_conf (set_conf (set_conf (set_conf (set_conf (set_conf
              (set_conf m 0 0x60) 1 0x10) 2 0x81) 3 0x88) 7 2) 8 4) 0x09 0x00)
              0x0a 0x00) 0x0b 0x06) 0x51 1) 0x52 1) 0x5a 4) 0x5c 0xc0) 0x5d 0x20)
              0x5f 0xff).
  assert (Hwf15 : wf m15) by (subst m15; solve_wf).
  assert (G54 : conf m15 0x54 = Some r54)
    by (subst m15; rewrite !conf_set_conf_ne by lia; exact H54).
  assert (G55 : conf m15 0x55 = Some r55)
    by (subst m15; rewrite !conf_set_conf_ne by lia; exact H55).
  set (m_mid := add_calls m15 (shadow_calls r54 r55)).
  assert (Hwf_mid : wf m_mid) by exact Hwf15.
  assert (G60 : conf (set_conf m_mid 0x60 0x20) 0x60 = Some 0x20)
    by (apply (conf_set_conf_eq_wf m_mid 0x60 0x20 Hwf_mid); lia).
  assert (Hw : hb4_write 0 0x60 0x20 m_mid =
               Some (tt, add_calls (set_conf m_mid 0x60 0x20)
                           (smram_calls (smram (dev m)) 0x20))).
  { change (hb4_write 0 0x60 0x20) with (store 0x60 0x20 ;; hb4_smram).
    rewrite bind_store_wf by first [lia | exact Hwf_mid].
    apply (hb4_smram_spec _ 0x20 G60). }
  exists (add_calls (set_conf m_mid 0x60 0x20) (smram_calls (smram (dev m)) 0x20)).
  exists m_mid, (add_calls m (shadow_calls r54 r55)), (shadow_calls r54 r55).
  split.
  { unfold hb4_reset.
    do 15 (rewrite bind_store_wf by first [lia | solve_wf]).
    fold m15. rewrite (bind_ok _ _ _ _ _ (hb4_shadow_spec m15 r54 r55 G54 G55)).
    exact Hw. }
  assert (Hread : forall a x : Z,
             conf (add_calls (set_conf m_mid 0x60 0x20) (smram_calls (smram (dev m)) 0x20)) a
               = Some x ->
             hb4_read 0 a (add_calls (set_conf m_mid 0x60 0x20)
                                     (smram_calls (smram (dev m)) 0x20))
               = Some (x, add_calls (set_conf m_mid 0x60 0x20)
                                    (smram_calls (smram (dev m)) 0x20))).
  { intros a x E. unfold hb4_read, load. rewrite E. reflexivity. }
  do 6 (split; [apply Hread; subst m_mid m15; conf_after_stores|]).
  split; [apply hb4_shadow_spec; assumption|].
  split; [reflexivity|]. split; [reflexivity|].
  do 7 (split; [subst m_mid m15; conf_after_stores|]).
  split; [exact Hw|]. split; [exact G60|].
  subst m_mid m15. cbn [calls add_calls set_conf]. rewrite <- app_assoc. reflexivity.
Qed.

Lemma hb4_reset_spec_witness :
  wf m_init /\
  exists (m' m_mid m_sh : machine) (cs : list call),
    hb4_reset m_init = Some (tt, m') /\
    hb4_read 0 0x00 m' = Some (0x60, m') /\
    hb4_read 0 0x01 m' = Some (0x10, m') /\
    hb4_read 0 0x02 m' = Some (0x81, m') /\
    hb4_read 0 0x03 m' = Some (0x88, m') /\
    hb4_read 0 0x51 m' = Some (0x01, m') /\
    hb4_read 0 0x5f m' = Some (0xff, m') /\
    hb4_shadow m_init = Some (tt, m_sh) /\ calls m_sh = calls m_init ++ cs /\
    calls m_mid = calls m_init ++ cs /\
    conf m_mid 0x07 = Some 0x02 /\ conf m_mid 0x08 = Some 0x04 /\
    conf m_mid 0x0b = Some 0x06 /\ conf m_mid 0x52 = Some 0x01 /\
    conf m_mid 0x5a = Some 0x04 /\ conf m_mid 0x5c = Some 0xc0 /\
    conf m_mid 0x5d = Some 0x20 /\
    hb4_write 0 0x60 0x20 m_mid = Some (tt, m') /\
    conf m' 0x60 = Some 0x20 /\
    calls m' =
      calls m_init ++ cs ++
      [ smram_disable_all;
        smram_enable (smram (dev m_init)) 0xa0000 0xa0000 0x20000 0 1;
        mem_set_mem_state_smram_ex 1 0xa0000 0x20000 0x02 ].
Proof.
  assert (Hwf : wf m_init) by (apply wf_b_true; vm_compute; reflexivity).
  split; [exact Hwf|].
  apply (hb4_reset_spec m_init Hwf).
Defined.

(** * The register file as a whole *)

(** Decides the integer comparisons of the goal from the hypotheses. *)
Ltac decide_offsets :=
  repeat match goal with
         | |- context [Z.eqb ?a ?b] => destruct (Z.eqb_spec a b); try lia
         | |- context [Z.leb ?a ?b] => destruct (Z.leb_spec a b); try lia
         end;
  cbn [andb orb negb].

(** One write, as a change of the three parts of the machine. *)
Lemma hb4_write_effect (m : machine) (func addr v old : Z) :
  wf m -> 0 <= addr < 128 -> conf m addr = Some old ->
  exists cs : list call,
    hb4_write func addr v m =
      Some (tt, mk_machine
                  (mk_hb4 (<[Z.to_nat addr := reg_after addr v old]> (pci_conf (dev m)))
                          (smram (dev m)))
                  (cache_after addr v (cpu_cache_ext_enabled m))
                  (calls m ++ cs)) /\
    (addr <> 0x50 -> addr <> 0x54 -> addr <> 0x55 -> addr <> 0x60 -> cs = []).
Proof.
  intros Hwf Ha Hold.
  destruct (hb4_write_dispatch func addr v Ha)
    as [[Hr E]|[[-> E]|[[-> E]|[[Hs E]|[[-> E]|[Hno E]]]]]]; rewrite E; clear E.
  - exists []. split; [|reflexivity].
    rewrite store_ok by assumption. unfold set_conf, reg_after, cache_after, has_policy.
    rewrite app_nil_r. decide_offsets; reflexivity.
  - exists []. split; [|reflexivity].
    rewrite (bind_load 7 old) by exact Hold.
    rewrite store_ok by assumption. unfold set_conf. rewrite app_nil_r. reflexivity.
  - exists [cpu_update_waitstates]. split; [|intros H; contradiction].
    rewrite (bind_ok _ _ _ _ _ (store_ok m _ _ Hwf Ha)). reflexivity.
  - pose proof (wf_set_conf m addr v Hwf) as Hwf'.
    destruct (conf_wf _ 0x54 Hwf') as (r54 & H54 & _); [lia|].
    destruct (conf_wf _ 0x55 Hwf') as (r55 & H55 & _); [lia|].
    exists (shadow_calls r54 r55). split; [|intros; lia].
    rewrite (bind_ok _ _ _ _ _ (store_ok m _ _ Hwf Ha)).
    rewrite (hb4_shadow_spec _ r54 r55 H54 H55).
    destruct Hs as [-> | ->]; reflexivity.
  - pose proof (wf_set_conf m 0x60 v Hwf) as Hwf'.
    destruct (conf_wf _ 0x60 Hwf') as (r60 & H60 & _); [lia|].
    exists (smram_calls (smram (dev m)) r60). split; [|intros; lia].
    rewrite (bind_ok _ _ _ _ _ (store_ok m _ _ Hwf Ha)).
    rewrite (hb4_smram_spec _ r60 H60). reflexivity.
  - exists []. split; [|reflexivity].
    apply conf_Some in Hold as [_ Hl].
    unfold reg_after, cache_after, has_policy, ret.
    decide_offsets; rewrite (list_insert_id _ _ _ Hl), app_nil_r;
      destruct m as [[l h] c cs]; reflexivity.
Qed.

(** X1: on a well-formed device a write at any offset in 0..127, with any
    value (a byte or not), stays inside the array and leaves 128 entries that
    are all bytes. *)
Theorem hb4_write_preserves_wf (m : machine) (func addr v : Z) :
  wf m -> 0 <= addr < 128 ->
  exists m' : machine, hb4_write func addr v m = Some (tt, m') /\ wf m'.
Proof.
  intros Hwf Ha.
  destruct (hb4_write_total m func addr v Hwf Ha) as (m' & x & cache & cs & Hrun & Hm').
  exists m'. split; [exact Hrun|].
  destruct Hm' as [-> | ->]; [exact Hwf | exact (wf_set_conf m addr x Hwf)].
Qed.

Lemma hb4_write_preserves_wf_witness :
  wf m_init /\ 0 <= 0x07 < 128 /\
  exists m' : machine, hb4_write 0 0x07 0x1ff m_init = Some (tt, m') /\ wf m'.
Proof.
  assert (Hwf : wf m_init) by (apply wf_b_true; vm_compute; reflexivity).
  assert (Ha : 0 <= 0x07 < 128) by lia.
  split; [exact Hwf|]. split; [exact Ha|].
  apply (hb4_write_preserves_wf m_init 0 0x07 0x1ff Hwf Ha).
Defined.

(** X2: [write(0x50, v)] sets [cpu_cache_ext_enabled] to bit 7 of [v], which
    is also bit 7 of the byte it stores, keeps bits 3 to 6 of [v] in the
    register, and calls [cpu_update_waitstates] once and nothing else. *)
Theorem hb4_write_0x50_cache_flag (m : machine) (func v : Z) :
  wf m -> is_byte v ->
  exists (m' : machine) (r : Z),
    hb4_write func 0x50 v m = Some (tt, m') /\
    conf m' 0x50 = Some r /\
    cpu_cache_ext_enabled m' = Z.b2z (Z.testbit v 7) /\
    cpu_cache_ext_enabled m' = Z.b2z (Z.testbit r 7) /\
    (forall k : Z, 3 <= k < 8 -> Z.testbit r k = Z.testbit v k) /\
    calls m' = calls m ++ [cpu_update_waitstates].
Proof.
  intros Hwf Hv.
  assert (Ha : 0 <= 0x50 < 128) by lia.
  assert (Hbit : forall k : Z, 3 <= k < 8 ->
            Z.testbit (Z.lor (Z.land v 0xf8) 4) k = Z.testbit v k).
  { intros k Hk. rewrite Z.lor_spec, Z.land_spec.
    assert (Hc : k = 3 \/ k = 4 \/ k = 5 \/ k = 6 \/ k = 7) by lia.
    destruct Hc as [->|[->|[->|[->| ->]]]];
      match goal with
      | |- context [Z.testbit 248 ?i] =>
          change (Z.testbit 248 i) with true; change (Z.testbit 4 i) with false
      end;
      rewrite andb_true_r, orb_false_r; reflexivity. }
  exists (add_calls
            (mk_machine (dev (set_conf m 0x50 (Z.lor (Z.land v 0xf8) 4)))
                        (Z.b2z (nonzero (Z.land v 0x80))) (calls m))
            [cpu_update_waitstates]).
  exists (Z.lor (Z.land v 0xf8) 4).
  change (Z.land v 128) with (Z.land v (2 ^ 7)). rewrite nonzero_land_pow2 by lia.
  split.
  { change (hb4_write func 0x50 v)
      with (store 0x50 (Z.lor (Z.land v 0xf8) 4) ;;
            set_cpu_cache_ext_enabled (Z.b2z (nonzero (Z.land v 0x80))) ;;
            emit cpu_update_waitstates).
    rewrite (bind_ok _ _ _ _ _ (store_ok m _ _ Hwf Ha)).
    change (Z.land v 128) with (Z.land v (2 ^ 7)). rewrite nonzero_land_pow2 by lia.
    reflexivity. }
  split.
  { change (conf ?s 0x50) with (conf (set_conf m 0x50 (Z.lor (Z.land v 0xf8) 4)) 0x50).
    rewrite conf_set_conf_eq_wf by assumption.
    rewrite u8_byte by apply is_byte_cache_size. reflexivity. }
  split; [reflexivity|].
  split; [cbn [cpu_cache_ext_enabled add_calls]; rewrite Hbit by lia; reflexivity|].
  split; [exact Hbit | reflexivity].
Qed.

Lemma hb4_write_0x50_cache_flag_witness :
  wf m_init /\ is_byte 0xc9 /\
  exists (m' : machine) (r : Z),
    hb4_write 0 0x50 0xc9 m_init = Some (tt, m') /\
    conf m' 0x50 = Some r /\
    cpu_cache_ext_enabled m' = Z.b2z (Z.testbit 0xc9 7) /\
    cpu_cache_ext_enabled m' = Z.b2z (Z.testbit r 7) /\
    (forall k : Z, 3 <= k < 8 -> Z.testbit r k = Z.testbit 0xc9 k) /\
    calls m' = calls m_init ++ [cpu_update_waitstates].
Proof.
  assert (Hwf : wf m_init) by (apply wf_b_true; vm_compute; reflexivity).
  assert (Hv : is_byte 0xc9) by (unfold is_byte; lia).
  split; [exact Hwf|]. split; [exact Hv|].
  apply (hb4_write_0x50_cache_flag m_init 0 0xc9 Hwf Hv).
Defined.

(** X3: a write never changes the SMRAM handle of the device, changes
    [cpu_cache_ext_enabled] only at offset 0x50, and calls a collaborator only
    at offsets 0x50, 0x54, 0x55 and 0x60: at every other offset, the clearing
    write to 0x07 included, the call log stays as it was. *)
Theorem hb4_write_side_effects (m : machine) (func addr v : Z) :
  wf m -> 0 <= addr < 128 ->
  exists m' : machine,
    hb4_write func addr v m = Some (tt, m') /\
    smram (dev m') = smram (dev m) /\
    (addr <> 0x50 -> cpu_cache_ext_enabled m' = cpu_cache_ext_enabled m) /\
    (addr <> 0x50 -> addr <> 0x54 -> addr <> 0x55 -> addr <> 0x60 ->
     calls m' = calls m).
Proof.
  intros Hwf Ha.
  destruct (conf_wf m addr Hwf Ha) as (old & Hold & _).
  destruct (hb4_write_effect m func addr v old Hwf Ha Hold) as (cs & Hrun & Hcs).
  eexists. split; [exact Hrun|]. split; [reflexivity|]. split.
  - intros Hne. cbn [cpu_cache_ext_enabled]. unfold cache_after.
    destruct (Z.eqb_spec addr 0x50); [contradiction | reflexivity].
  - intros H1 H2 H3 H4. cbn [calls]. rewrite (Hcs H1 H2 H3 H4). apply app_nil_r.
Qed.

Lemma hb4_write_side_effects_witness :
  wf m_init /\ 0 <= 0x07 < 128 /\
  exists m' : machine,
    hb4_write 0 0x07 0xff m_init = Some (tt, m') /\
    smram (dev m') = smram (dev m_init) /\
    (0x07 <> 0x50 -> cpu_cache_ext_enabled m' = cpu_cache_ext_enabled m_init) /\
    (0x07 <> 0x50 -> 0x07 <> 0x54 -> 0x07 <> 0x55 -> 0x07 <> 0x60 ->
     calls m' = calls m_init).
Proof.
  assert (Hwf : wf m_init) by (apply wf_b_true; vm_compute; reflexivity).
  assert (Ha : 0 <= 0x07 < 128) by lia.
  split; [exact Hwf|]. split; [exact Ha|].
  apply (hb4_write_side_effects m_init 0 0x07 0xff Hwf Ha).
Defined.

Lemma hb4_write_0x07_run (m : machine) (func v old : Z) :
  conf m 0x07 = Some old ->
  hb4_write func 0x07 v m =
    Some (tt, set_conf m 0x07 (Z.land old (Z.lnot (Z.land v 0xf9)))).
Proof.
  intros Hold.
  change (hb4_write func 0x07 v)
    with (o <- load 0x07 ;; store 0x07 (Z.land o (Z.lnot (Z.land v 0xf9)))).
  rewrite (bind_load 7 old) by exact Hold.
  unfold store. rewrite Hold. reflexivity.
Qed.

Lemma clear_twice (old v w : Z) :
  Z.land (Z.land old (Z.lnot (Z.land v 0xf9))) (Z.lnot (Z.land w 0xf9)) =
  Z.land old (Z.lnot (Z.land (Z.lor v w) 0xf9)).
Proof.
  apply Z.bits_inj'. intros k Hk.
  rewrite !Z.land_spec, !Z.lnot_spec, !Z.land_spec, Z.lor_spec by exact Hk.
  destruct (Z.testbit old k), (Z.testbit v k), (Z.testbit w k), (Z.testbit 249 k);
    reflexivity.
Qed.

(** X4: two clearing writes to 0x07, with [v] and then with [w], leave the
    machine exactly as one write with [v | w] does, and the byte they leave
    has no bit that the byte before did not have: no write to 0x07 ever sets
    a bit. *)
Theorem hb4_write_0x07_compose (m : machine) (func v w : Z) :
  wf m ->
  exists (m1 m2 : machine) (old new : Z),
    hb4_write func 0x07 v m = Some (tt, m1) /\
    hb4_write func 0x07 w m1 = Some (tt, m2) /\
    hb4_write func 0x07 (Z.lor v w) m = Some (tt, m2) /\
    conf m 0x07 = Some old /\ conf m2 0x07 = Some new /\
    Z.land new old = new.
Proof.
  intros Hwf.
  destruct (conf_wf m 7 Hwf) as (old & Hold & Hb); [lia|].
  set (x1 := Z.land old (Z.lnot (Z.land v 0xf9))).
  assert (Hb1 : is_byte x1) by (apply is_byte_land_l; exact Hb).
  assert (H1 : conf (set_conf m 7 x1) 7 = Some x1).
  { rewrite (conf_set_conf_eq m 7 x1 old Hold), u8_byte by exact Hb1. reflexivity. }
  assert (E : set_conf (set_conf m 7 x1) 7 (Z.land x1 (Z.lnot (Z.land w 0xf9))) =
              set_conf m 7 (Z.land old (Z.lnot (Z.land (Z.lor v w) 0xf9)))).
  { unfold set_conf. cbn [dev pci_conf smram cpu_cache_ext_enabled calls].
    rewrite list_insert_insert_eq. subst x1. rewrite clear_twice. reflexivity. }
  exists (set_conf m 7 x1), (set_conf m 7 (Z.land old (Z.lnot (Z.land (Z.lor v w) 0xf9)))).
  exists old, (Z.land old (Z.lnot (Z.land (Z.lor v w) 0xf9))).
  split; [apply hb4_write_0x07_run; exact Hold|].
  split; [rewrite (hb4_write_0x07_run _ func w x1 H1), E; reflexivity|].
  split; [apply hb4_write_0x07_run; exact Hold|].
  split; [exact Hold|]. split.
  - rewrite (conf_set_conf_eq m 7 _ old Hold).
    rewrite u8_byte by (apply is_byte_land_l; exact Hb). reflexivity.
  - rewrite <- Z.land_assoc, (Z.land_comm _ old), Z.land_assoc, Z.land_diag. reflexivity.
Qed.

Lemma hb4_write_0x07_compose_witness :
  wf m_init /\
  exists (m1 m2 : machine) (old new : Z),
    hb4_write 0 0x07 0x01 m_init = Some (tt, m1) /\
    hb4_write 0 0x07 0x02 m1 = Some (tt, m2) /\
    hb4_write 0 0x07 (Z.lor 0x01 0x02) m_init = Some (tt, m2) /\
    conf m_init 0x07 = Some old /\ conf m2 0x07 = Some new /\
    Z.land new old = new.
Proof.
  assert (Hwf : wf m_init) by (apply wf_b_true; vm_compute; reflexivity).
  split; [exact Hwf|].
  apply (hb4_write_0x07_compose m_init 0 0x01 0x02 Hwf).
Defined.

Lemma conf_insert_ne (m : machine) (a b x h c : Z) (cs : list call) :
  0 <= a -> a <> b ->
  conf (mk_machine (mk_hb4 (<[Z.to_nat a := x]> (pci_conf (dev m))) h) c cs) b = conf m b.
Proof.
  intros Ha Hab. unfold conf. cbn [dev pci_conf]. rewrite length_insert.
  destruct (Z.leb_spec 0 b); simpl; [|reflexivity].
  destruct (Z.ltb_spec b (Z.of_nat (length (pci_conf (dev m))))); [|reflexivity].
  apply list_lookup_insert_ne. lia.
Qed.

(** X5: writes to two different offsets can be made in either order: both
    orders return, and they leave the same device (all 128 registers and the
    handle) and the same [cpu_cache_ext_enabled]. *)
Theorem hb4_write_commute (m : machine) (func a b v w : Z) :
  wf m -> 0 <= a < 128 -> 0 <= b < 128 -> a <> b ->
  exists m1 m2 n1 n2 : machine,
    hb4_write func a v m = Some (tt, m1) /\
    hb4_write func b w m1 = Some (tt, m2) /\
    hb4_write func b w m = Some (tt, n1) /\
    hb4_write func a v n1 = Some (tt, n2) /\
    dev m2 = dev n2 /\
    cpu_cache_ext_enabled m2 = cpu_cache_ext_enabled n2.
Proof.
  intros Hwf Ha Hb Hab.
  destruct (conf_wf m a Hwf Ha) as (oa & Hoa & _).
  destruct (conf_wf m b Hwf Hb) as (ob & Hob & _).
  destruct (hb4_write_effect m func a v oa Hwf Ha Hoa) as (cs1 & Hm1 & _).
  destruct (hb4_write_effect m func b w ob Hwf Hb Hob) as (ds1 & Hn1 & _).
  pose proof (hb4_write_wf _ _ _ _ _ Hwf Ha Hm1) as Hwf1.
  pose proof (hb4_write_wf _ _ _ _ _ Hwf Hb Hn1) as Hwf2.
  match type of Hm1 with _ = Some (_, ?s) => set (m1 := s) in * end.
  match type of Hn1 with _ = Some (_, ?s) => set (n1 := s) in * end.
  assert (Hob1 : conf m1 b = Some ob)
    by (subst m1; rewrite conf_insert_ne by lia; exact Hob).
  assert (Hoa1 : conf n1 a = Some oa)
    by (subst n1; rewrite conf_insert_ne by lia; exact Hoa).
  destruct (hb4_write_effect m1 func b w ob Hwf1 Hb Hob1) as (cs2 & Hm2 & _).
  destruct (hb4_write_effect n1 func a v oa Hwf2 Ha Hoa1) as (ds2 & Hn2 & _).
  eexists m1, _, n1, _.
  split; [exact Hm1|]. split; [exact Hm2|]. split; [exact Hn1|]. split; [exact Hn2|].
  subst m1 n1. cbn [dev pci_conf smram cpu_cache_ext_enabled]. split.
  - f_equal. apply list_insert_insert_ne. lia.
  - unfold cache_after.
    destruct (Z.eqb_spec a 0x50), (Z.eqb_spec b 0x50); try reflexivity. lia.
Qed.

Lemma hb4_write_commute_witness :
  wf m_init /\ 0 <= 0x50 < 128 /\ 0 <= 0x55 < 128 /\ 0x50 <> 0x55 /\
  exists m1 m2 n1 n2 : machine,
    hb4_write 0 0x50 0x80 m_init = Some (tt, m1) /\
    hb4_write 0 0x55 0xc0 m1 = Some (tt, m2) /\
    hb4_write 0 0x55 0xc0 m_init = Some (tt, n1) /\
    hb4_write 0 0x50 0x80 n1 = Some (tt, n2) /\
    dev m2 = dev n2 /\
    cpu_cache_ext_enabled m2 = cpu_cache_ext_enabled n2.
Proof.
  assert (Hwf : wf m_init) by (apply wf_b_true; vm_compute; reflexivity).
  assert (Ha : 0 <= 0x50 < 128) by lia.
  assert (Hb : 0 <= 0x55 < 128) by lia.
  assert (Hab : 0x50 <> 0x55) by lia.
  split; [exact Hwf|]. split; [exact Ha|]. split; [exact Hb|]. split; [exact Hab|].
  apply (hb4_write_commute m_init 0 0x50 0x55 0x80 0xc0 Hwf Ha Hb Hab).
Defined.

(** * The shadow windows, bit by bit *)

Lemma nonzero_shiftr_land4 (r i : Z) :
  0 <= i -> nonzero (Z.land (Z.shiftr r i) 4) = Z.testbit r (i + 2).
Proof.
  intros Hi. change 4 with (2 ^ 2). rewrite nonzero_land_pow2 by lia.
  rewrite Z.shiftr_spec by lia. f_equal. lia.
Qed.

Lemma shadow_calls_bits (r54 r55 : Z) :
  shadow_calls r54 r55 =
  mem_set_mem_state_both 0xe0000 0x20000
    (mem_flags (if Z.testbit r55 7 then MEM_READ_INTERNAL else MEM_READ_EXTANY)
               (if Z.testbit r55 6 then MEM_WRITE_EXTANY else MEM_WRITE_INTERNAL))
  :: (if Z.testbit r54 0
      then [ mem_set_mem_state_both 0xc0000 0x8000
               (shadow_perm (Z.testbit r54 1) (Z.testbit r55 6));
             mem_set_mem_state_both 0xc8000 0x8000
               (shadow_perm (Z.testbit r54 2) (Z.testbit r55 6));
             mem_set_mem_state_both 0xcc000 0x8000
               (shadow_perm (Z.testbit r54 3) (Z.testbit r55 6));
             mem_set_mem_state_both 0xd0000 0x8000
               (shadow_perm (Z.testbit r54 4) (Z.testbit r55 6));
             mem_set_mem_state_both 0xd4000 0x8000
               (shadow_perm (Z.testbit r54 5) (Z.testbit r55 6));
             mem_set_mem_state_both 0xd8000 0x8000
               (shadow_perm (Z.testbit r54 6) (Z.testbit r55 6)) ]
      else [])
  ++ [flushmmucache_nopc].
Proof.
  unfold shadow_calls, shadow_wr, shadow_perm.
  change (loop_calls 5 0 (window_call r54 r55))
    with [ window_call r54 r55 0; window_call r54 r55 1; window_call r54 r55 2;
           window_call r54 r55 3; window_call r54 r55 4 ].
  unfold window_call, shadow_wr.
  rewrite !nonzero_shiftr_land4 by lia.
  change (Z.land r55 128) with (Z.land r55 (2 ^ 7)).
  change (Z.land r55 64) with (Z.land r55 (2 ^ 6)).
  change (Z.land r54 1) with (Z.land r54 (2 ^ 0)).
  change (Z.land r54 2) with (Z.land r54 (2 ^ 1)).
  rewrite !nonzero_land_pow2 by lia.
  reflexivity.
Qed.

(** X6: with bit 0 of register 0x54 set, one run of [hb4_shadow] makes eight
    calls in this order: the 0xE0000 window, the 0xC0000 window under bit 1,
    the 32KB windows at 0xC8000, 0xCC000, 0xD0000, 0xD4000 and 0xD8000 under
    bits 2, 3, 4, 5 and 6 of register 0x54, then the flush.  A window whose
    bit is set reads from RAM and writes to RAM unless bit 6 of register 0x55
    is set; a window whose bit is clear goes to the external bus both ways. *)
Theorem hb4_shadow_enabled_calls (m : machine) (r54 r55 : Z) :
  conf m 0x54 = Some r54 -> conf m 0x55 = Some r55 -> Z.testbit r54 0 = true ->
  exists m' : machine,
    hb4_shadow m = Some (tt, m') /\
    dev m' = dev m /\
    calls m' =
      calls m ++
      [ mem_set_mem_state_both 0xe0000 0x20000
          (mem_flags (if Z.testbit r55 7 then MEM_READ_INTERNAL else MEM_READ_EXTANY)
                     (if Z.testbit r55 6 then MEM_WRITE_EXTANY else MEM_WRITE_INTERNAL));
        mem_set_mem_state_both 0xc0000 0x8000 (shadow_perm (Z.testbit r54 1) (Z.testbit r55 6));
        mem_set_mem_state_both 0xc8000 0x8000 (shadow_perm (Z.testbit r54 2) (Z.testbit r55 6));
        mem_set_mem_state_both 0xcc000 0x8000 (shadow_perm (Z.testbit r54 3) (Z.testbit r55 6));
        mem_set_mem_state_both 0xd0000 0x8000 (shadow_perm (Z.testbit r54 4) (Z.testbit r55 6));
        mem_set_mem_state_both 0xd4000 0x8000 (shadow_perm (Z.testbit r54 5) (Z.testbit r55 6));
        mem_set_mem_state_both 0xd8000 0x8000 (shadow_perm (Z.testbit r54 6) (Z.testbit r55 6));
        flushmmucache_nopc ].
Proof.
  intros H54 H55 Hb.
  exists (add_calls m (shadow_calls r54 r55)).
  split; [apply hb4_shadow_spec; assumption|]. split; [reflexivity|].
  cbn [calls add_calls]. rewrite shadow_calls_bits, Hb. reflexivity.
Qed.

Lemma hb4_shadow_enabled_calls_witness :
  conf (set_conf m_init 0x54 0x0b) 0x54 = Some 0x0b /\
  conf (set_conf m_init 0x54 0x0b) 0x55 = Some 0 /\
  Z.testbit 0x0b 0 = true /\
  exists m' : machine,
    hb4_shadow (set_conf m_init 0x54 0x0b) = Some (tt, m') /\
    dev m' = dev (set_conf m_init 0x54 0x0b) /\
    calls m' =
      calls (set_conf m_init 0x54 0x0b) ++
      [ mem_set_mem_state_both 0xe0000 0x20000
          (mem_flags (if Z.testbit 0 7 then MEM_READ_INTERNAL else MEM_READ_EXTANY)
                     (if Z.testbit 0 6 then MEM_WRITE_EXTANY else MEM_WRITE_INTERNAL));
        mem_set_mem_state_both 0xc0000 0x8000 (shadow_perm (Z.testbit 0x0b 1) (Z.testbit 0 6));
        mem_set_mem_state_both 0xc8000 0x8000 (shadow_perm (Z.testbit 0x0b 2) (Z.testbit 0 6));
        mem_set_mem_state_both 0xcc000 0x8000 (shadow_perm (Z.testbit 0x0b 3) (Z.testbit 0 6));
        mem_set_mem_state_both 0xd0000 0x8000 (shadow_perm (Z.testbit 0x0b 4) (Z.testbit 0 6));
        mem_set_mem_state_both 0xd4000 0x8000 (shadow_perm (Z.testbit 0x0b 5) (Z.testbit 0 6));
        mem_set_mem_state_both 0xd8000 0x8000 (shadow_perm (Z.testbit 0x0b 6) (Z.testbit 0 6));
        flushmmucache_nopc ].
Proof.
  assert (H54 : conf (set_conf m_init 0x54 0x0b) 0x54 = Some 0x0b) by (vm_compute; reflexivity).
  assert (H55 : conf (set_conf m_init 0x54 0x0b) 0x55 = Some 0) by (vm_compute; reflexivity).
  assert (Hb : Z.testbit 0x0b 0 = true) by reflexivity.
  split; [exact H54|]. split; [exact H55|]. split; [exact Hb|].
  apply (hb4_shadow_enabled_calls (set_conf m_init 0x54 0x0b) 0x0b 0 H54 H55 Hb).
Defined.

(** X7: [hb4_shadow] never looks at bit 7 of register 0x54 nor at bits 0 to 5
    of register 0x55: two machines whose registers 0x54 agree on bits 0 to 6
    and whose registers 0x55 agree on bits 6 and 7 get the same calls. *)
Theorem hb4_shadow_ignored_bits (m1 m2 : machine) (r54 r55 s54 s55 : Z) :
  conf m1 0x54 = Some r54 -> conf m1 0x55 = Some r55 ->
  conf m2 0x54 = Some s54 -> conf m2 0x55 = Some s55 ->
  (forall k : Z, 0 <= k < 7 -> Z.testbit r54 k = Z.testbit s54 k) ->
  Z.testbit r55 6 = Z.testbit s55 6 -> Z.testbit r55 7 = Z.testbit s55 7 ->
  exists (cs : list call) (m1' m2' : machine),
    hb4_shadow m1 = Some (tt, m1') /\ calls m1' = calls m1 ++ cs /\
    hb4_shadow m2 = Some (tt, m2') /\ calls m2' = calls m2 ++ cs.
Proof.
  intros H1 H1' H2 H2' Hlow H6 H7.
  exists (shadow_calls r54 r55).
  exists (add_calls m1 (shadow_calls r54 r55)), (add_calls m2 (shadow_calls r54 r55)).
  split; [apply hb4_shadow_spec; assumption|]. split; [reflexivity|].
  split; [|reflexivity].
  assert (E : shadow_calls r54 r55 = shadow_calls s54 s55).
  { rewrite !shadow_calls_bits, H6, H7.
    rewrite !(Hlow 0), !(Hlow 1), !(Hlow 2), !(Hlow 3), !(Hlow 4), !(Hlow 5), !(Hlow 6)
      by lia.
    reflexivity. }
  rewrite E. apply hb4_shadow_spec; assumption.
Qed.

Lemma hb4_shadow_ignored_bits_witness :
  conf (set_conf m_init 0x54 0x05) 0x54 = Some 0x05 /\
  conf (set_conf m_init 0x54 0x05) 0x55 = Some 0 /\
  conf (set_conf (set_conf m_init 0x54 0x85) 0x55 0x3f) 0x54 = Some 0x85 /\
  conf (set_conf (set_conf m_init 0x54 0x85) 0x55 0x3f) 0x55 = Some 0x3f /\
  (forall k : Z, 0 <= k < 7 -> Z.testbit 0x05 k = Z.testbit 0x85 k) /\
  Z.testbit 0 6 = Z.testbit 0x3f 6 /\ Z.testbit 0 7 = Z.testbit 0x3f 7 /\
  exists (cs : list call) (m1' m2' : machine),
    hb4_shadow (set_conf m_init 0x54 0x05) = Some (tt, m1') /\
    calls m1' = calls (set_conf m_init 0x54 0x05) ++ cs /\
    hb4_shadow (set_conf (set_conf m_init 0x54 0x85) 0x55 0x3f) = Some (tt, m2') /\
    calls m2' = calls (set_conf (set_conf m_init 0x54 0x85) 0x55 0x3f) ++ cs.
Proof.
  assert (H1 : conf (set_conf m_init 0x54 0x05) 0x54 = Some 0x05) by (vm_compute; reflexivity).
  assert (H2 : conf (set_conf m_init 0x54 0x05) 0x55 = Some 0) by (vm_compute; reflexivity).
  assert (H3 : conf (set_conf (set_conf m_init 0x54 0x85) 0x55 0x3f) 0x54 = Some 0x85)
    by (vm_compute; reflexivity).
  assert (H4 : conf (set_conf (set_conf m_init 0x54 0x85) 0x55 0x3f) 0x55 = Some 0x3f)
    by (vm_compute; reflexivity).
  assert (Hlow : forall k : Z, 0 <= k < 7 -> Z.testbit 0x05 k = Z.testbit 0x85 k).
  { intros k Hk.
    assert (Hc : k = 0 \/ k = 1 \/ k = 2 \/ k = 3 \/ k = 4 \/ k = 5 \/ k = 6) by lia.
    destruct Hc as [->|[->|[->|[->|[->|[->| ->]]]]]]; reflexivity. }
  assert (H6 : Z.testbit 0 6 = Z.testbit 0x3f 6) by reflexivity.
  assert (H7 : Z.testbit 0 7 = Z.testbit 0x3f 7) by reflexivity.
  split; [exact H1|]. split; [exact H2|]. split; [exact H3|]. split; [exact H4|].
  split; [exact Hlow|]. split; [exact H6|]. split; [exact H7|].
  apply (hb4_shadow_ignored_bits _ _ 0x05 0 0x85 0x3f H1 H2 H3 H4 Hlow H6 H7).
Defined.

Lemma covering_in (a base size : Z) (st : mem_state) (cs : list call) :
  base <= a < base + size ->
  covering a (mem_set_mem_state_both base size st :: cs) = st :: covering a cs.
Proof.
  intros H. cbn [covering].
  destruct (Z.leb_spec base a), (Z.ltb_spec a (base + size)); try lia. reflexivity.
Qed.

Lemma covering_out (a base size : Z) (st : mem_state) (cs : list call) :
  ~ base <= a < base + size ->
  covering a (mem_set_mem_state_both base size st :: cs) = covering a cs.
Proof.
  intros H. cbn [covering].
  destruct (Z.leb_spec base a), (Z.ltb_spec a (base + size)); try lia; reflexivity.
Qed.

(** Walks down a call list, keeping the updates whose range holds the address. *)
Ltac walk_covering :=
  repeat first [ rewrite covering_in by lia | rewrite covering_out by lia ];
  reflexivity.

(** X8: which bit governs which 16KB block.  With bit 0 of register 0x54 set,
    the last update that one run of [hb4_shadow] makes for an address is: for
    0xC0000-0xC7FFF the one under bit 1; for block [i] of 16KB from 0xC8000
    ([i] in 0..4) the one under bit [i + 2]; for 0xDC000-0xDFFFF the one under
    bit 6 (not bit 7); for 0xE0000-0xFFFFF the one under register 0x55.  No
    update is made for an address below 0xC0000 or from 0x100000 on. *)
Theorem hb4_shadow_last_update (m : machine) (r54 r55 : Z) :
  conf m 0x54 = Some r54 -> conf m 0x55 = Some r55 -> Z.testbit r54 0 = true ->
  exists (m' : machine) (cs : list call),
    hb4_shadow m = Some (tt, m') /\ calls m' = calls m ++ cs /\
    (forall a : Z, 0xc0000 <= a < 0xc8000 ->
       last (covering a cs) = Some (shadow_perm (Z.testbit r54 1) (Z.testbit r55 6))) /\
    (forall i a : Z, 0 <= i < 5 ->
       0xc8000 + 0x4000 * i <= a < 0xc8000 + 0x4000 * (i + 1) ->
       last (covering a cs) = Some (shadow_perm (Z.testbit r54 (i + 2)) (Z.testbit r55 6))) /\
    (forall a : Z, 0xdc000 <= a < 0xe0000 ->
       last (covering a cs) = Some (shadow_perm (Z.testbit r54 6) (Z.testbit r55 6))) /\
    (forall a : Z, 0xe0000 <= a < 0x100000 ->
       last (covering a cs) =
       Some (mem_flags (if Z.testbit r55 7 then MEM_READ_INTERNAL else MEM_READ_EXTANY)
                       (if Z.testbit r55 6 then MEM_WRITE_EXTANY else MEM_WRITE_INTERNAL))) /\
    (forall a : Z, a < 0xc0000 \/ 0x100000 <= a -> covering a cs = []).
Proof.
  intros H54 H55 Hb.
  exists (add_calls m (shadow_calls r54 r55)), (shadow_calls r54 r55).
  split; [apply hb4_shadow_spec; assumption|]. split; [reflexivity|].
  rewrite shadow_calls_bits, Hb. cbn [app].
  split; [intros a Ha; walk_covering|].
  split.
  { intros i a Hi Ha.
    assert (Hc : i = 0 \/ i = 1 \/ i = 2 \/ i = 3 \/ i = 4) by lia.
    destruct Hc as [->|[->|[->|[-> | ->]]]]; walk_covering. }
  split; [intros a Ha; walk_covering|].
  split; [intros a Ha; walk_covering|].
  intros a Ha; walk_covering.
Qed.

Lemma hb4_shadow_last_update_witness :
  conf (set_conf m_init 0x54 0x45) 0x54 = Some 0x45 /\
  conf (set_conf m_init 0x54 0x45) 0x55 = Some 0 /\
  Z.testbit 0x45 0 = true /\
  exists (m' : machine) (cs : list call),
    hb4_shadow (set_conf m_init 0x54 0x45) = Some (tt, m') /\
    calls m' = calls (set_conf m_init 0x54 0x45) ++ cs /\
    (forall a : Z, 0xc0000 <= a < 0xc8000 ->
       last (covering a cs) = Some (shadow_perm (Z.testbit 0x45 1) (Z.testbit 0 6))) /\
    (forall i a : Z, 0 <= i < 5 ->
       0xc8000 + 0x4000 * i <= a < 0xc8000 + 0x4000 * (i + 1) ->
       last (covering a cs) = Some (shadow_perm (Z.testbit 0x45 (i + 2)) (Z.testbit 0 6))) /\
    (forall a : Z, 0xdc000 <= a < 0xe0000 ->
       last (covering a cs) = Some (shadow_perm (Z.testbit 0x45 6) (Z.testbit 0 6))) /\
    (forall a : Z, 0xe0000 <= a < 0x100000 ->
       last (covering a cs) =
       Some (mem_flags (if Z.testbit 0 7 then MEM_READ_INTERNAL else MEM_READ_EXTANY)
                       (if Z.testbit 0 6 then MEM_WRITE_EXTANY else MEM_WRITE_INTERNAL))) /\
    (forall a : Z, a < 0xc0000 \/ 0x100000 <= a -> covering a cs = []).
Proof.
  assert (H54 : conf (set_conf m_init 0x54 0x45) 0x54 = Some 0x45) by (vm_compute; reflexivity).
  assert (H55 : conf (set_conf m_init 0x54 0x45) 0x55 = Some 0) by (vm_compute; reflexivity).
  assert (Hb : Z.testbit 0x45 0 = true) by reflexivity.
  split; [exact H54|]. split; [exact H55|]. split; [exact Hb|].
  apply (hb4_shadow_last_update (set_conf m_init 0x54 0x45) 0x45 0 H54 H55 Hb).
Defined.

(** X9: registers 0x54 and 0x55 can be programmed in either order: the calls
    made by the second of the two writes are the same list in both orders,
    the one that the final pair of register values gives. *)
Theorem hb4_write_shadow_order (m : machine) (func v54 v55 : Z) :
  wf m -> is_byte v54 -> is_byte v55 ->
  exists (m1 m2 n1 n2 m3 : machine) (cs : list call),
    hb4_write func 0x54 v54 m = Some (tt, m1) /\
    hb4_write func 0x55 v55 m1 = Some (tt, m2) /\
    hb4_write func 0x55 v55 m = Some (tt, n1) /\
    hb4_write func 0x54 v54 n1 = Some (tt, n2) /\
    calls m2 = calls m1 ++ cs /\ calls n2 = calls n1 ++ cs /\
    hb4_shadow m2 = Some (tt, m3) /\ calls m3 = calls m2 ++ cs.
Proof.
  intros Hwf H54 H55.
  destruct (hb4_write_shadow_run m func 0x54 v54 Hwf H54 (or_introl eq_refl))
    as (a54 & a55 & _ & _ & A54 & Hm1).
  destruct (hb4_write_shadow_run m func 0x55 v55 Hwf H55 (or_intror eq_refl))
    as (b54 & b55 & _ & _ & B55 & Hn1).
  set (m1 := add_calls (set_conf m 0x54 v54) (shadow_calls a54 a55)) in *.
  set (n1 := add_calls (set_conf m 0x55 v55) (shadow_calls b54 b55)) in *.
  assert (Hwf1 : wf m1) by (apply wf_add_calls, wf_set_conf; exact Hwf).
  assert (Hwf2 : wf n1) by (apply wf_add_calls, wf_set_conf; exact Hwf).
  destruct (hb4_write_shadow_run m1 func 0x55 v55 Hwf1 H55 (or_intror eq_refl))
    as (c54 & c55 & C54 & C55 & C55' & Hm2).
  destruct (hb4_write_shadow_run n1 func 0x54 v54 Hwf2 H54 (or_introl eq_refl))
    as (d54 & d55 & D54 & D55 & D54' & Hn2).
  rewrite conf_set_conf_ne in C54 by lia. rewrite conf_set_conf_ne in D55 by lia.
  change (conf m1 0x54) with (conf (set_conf m 0x54 v54) 0x54) in C54.
  change (conf n1 0x55) with (conf (set_conf m 0x55 v55) 0x55) in D55.
  assert (c54 = v54) by congruence. assert (c55 = v55) by congruence.
  assert (d54 = v54) by congruence. assert (d55 = v55) by congruence.
  subst c54 c55 d54 d55.
  exists m1, (add_calls (set_conf m1 0x55 v55) (shadow_calls v54 v55)).
  exists n1, (add_calls (set_conf n1 0x54 v54) (shadow_calls v54 v55)).
  exists (add_calls (add_calls (set_conf m1 0x55 v55) (shadow_calls v54 v55))
                    (shadow_calls v54 v55)).
  exists (shadow_calls v54 v55).
  split; [exact Hm1|]. split; [exact Hm2|]. split; [exact Hn1|]. split; [exact Hn2|].
  split; [reflexivity|]. split; [reflexivity|].
  split; [|reflexivity].
  apply hb4_shadow_spec.
  - rewrite conf_add_calls, conf_set_conf_ne by lia. exact C54.
  - rewrite conf_add_calls. exact C55'.
Qed.

Lemma hb4_write_shadow_order_witness :
  wf m_init /\ is_byte 0x0f /\ is_byte 0xc0 /\
  exists (m1 m2 n1 n2 m3 : machine) (cs : list call),
    hb4_write 0 0x54 0x0f m_init = Some (tt, m1) /\
    hb4_write 0 0x55 0xc0 m1 = Some (tt, m2) /\
    hb4_write 0 0x55 0xc0 m_init = Some (tt, n1) /\
    hb4_write 0 0x54 0x0f n1 = Some (tt, n2) /\
    calls m2 = calls m1 ++ cs /\ calls n2 = calls n1 ++ cs /\
    hb4_shadow m2 = Some (tt, m3) /\ calls m3 = calls m2 ++ cs.
Proof.
  assert (Hwf : wf m_init) by (apply wf_b_true; vm_compute; reflexivity).
  assert (H54 : is_byte 0x0f) by (unfold is_byte; lia).
  assert (H55 : is_byte 0xc0) by (unfold is_byte; lia).
  split; [exact Hwf|]. split; [exact H54|]. split; [exact H55|].
  apply (hb4_write_shadow_order m_init 0 0x0f 0xc0 Hwf H54 H55).
Defined.

(** * Reset and construction as a whole *)

From Stdlib Require Import ZifyBool.

Lemma hb4_reset_run (m : machine) (r54 r55 : Z) :
  wf m -> conf m 0x54 = Some r54 -> conf m 0x55 = Some r55 ->
  hb4_reset m = Some (tt, reset_result m r54 r55).
Proof.
  intros Hwf H54 H55.
  assert (E : hb4_reset m = (hb4_shadow ;; hb4_write 0 0x60 0x20) (reset_stores m)).
  { unfold hb4_reset.
    do 15 (rewrite bind_store_wf by first [solve_wf | lia]).
    reflexivity. }
  rewrite E. clear E.
  assert (Hwf15 : wf (reset_stores m)) by (unfold reset_stores; solve_wf).
  assert (G54 : conf (reset_stores m) 0x54 = Some r54)
    by (unfold reset_stores; rewrite !conf_set_conf_ne by lia; exact H54).
  assert (G55 : conf (reset_stores m) 0x55 = Some r55)
    by (unfold reset_stores; rewrite !conf_set_conf_ne by lia; exact H55).
  rewrite (bind_ok _ _ _ _ _ (hb4_shadow_spec _ r54 r55 G54 G55)).
  unfold reset_result.
  generalize dependent (reset_stores m). intros s Hwfs _ _.
  assert (Hwf_mid : wf (add_calls s (shadow_calls r54 r55)))
    by (apply wf_add_calls; exact Hwfs).
  assert (G60 : conf (set_conf (add_calls s (shadow_calls r54 r55)) 0x60 0x20) 0x60
                = Some 0x20)
    by (apply conf_set_conf_eq_wf; [exact Hwf_mid | lia]).
  change (hb4_write 0 0x60 0x20) with (store 0x60 0x20 ;; hb4_smram).
  rewrite bind_store_wf by first [exact Hwf_mid | lia].
  rewrite (hb4_smram_spec _ 0x20 G60). reflexivity.
Qed.

Lemma wf_reset_result (m : machine) (r54 r55 : Z) : wf m -> wf (reset_result m r54 r55).
Proof.
  intros Hwf. unfold reset_result.
  apply wf_add_calls, wf_set_conf, wf_add_calls.
  unfold reset_stores. repeat apply wf_set_conf. exact Hwf.
Qed.

Lemma reset_result_frame (m : machine) (r54 r55 a : Z) :
  reset_writes a = false -> conf (reset_result m r54 r55) a = conf m a.
Proof.
  intros Hno. unfold reset_writes in Hno. unfold reset_result, reset_stores.
  rewrite conf_add_calls, conf_set_conf_ne, conf_add_calls by lia.
  rewrite !conf_set_conf_ne by lia. reflexivity.
Qed.

(** X10: [hb4_reset] is no full reset.  It returns on every well-formed
    device and rewrites only offsets 0x00-0x03, 0x07-0x0B, 0x51, 0x52, 0x5A,
    0x5C, 0x5D, 0x5F and 0x60: every other register, the cache control 0x50
    and the shadow controls 0x54 and 0x55 among them, keeps the value it had,
    and so do [cpu_cache_ext_enabled] and the SMRAM handle. *)
Theorem hb4_reset_frame (m : machine) :
  wf m ->
  exists m' : machine,
    hb4_reset m = Some (tt, m') /\ wf m' /\
    (forall a : Z, reset_writes a = false -> conf m' a = conf m a) /\
    conf m' 0x50 = conf m 0x50 /\ conf m' 0x54 = conf m 0x54 /\
    conf m' 0x55 = conf m 0x55 /\
    cpu_cache_ext_enabled m' = cpu_cache_ext_enabled m /\
    smram (dev m') = smram (dev m).
Proof.
  intros Hwf.
  destruct (conf_wf m 0x54 Hwf) as (r54 & H54 & _); [lia|].
  destruct (conf_wf m 0x55 Hwf) as (r55 & H55 & _); [lia|].
  exists (reset_result m r54 r55).
  split; [apply hb4_reset_run; assumption|].
  split; [apply wf_reset_result; exact Hwf|].
  split; [intros a Ha; apply reset_result_frame; exact Ha|].
  split; [apply reset_result_frame; reflexivity|].
  split; [apply reset_result_frame; reflexivity|].
  split; [apply reset_result_frame; reflexivity|].
  split; reflexivity.
Qed.

Lemma hb4_reset_frame_witness :
  wf (set_conf m_init 0x54 0xff) /\
  exists m' : machine,
    hb4_reset (set_conf m_init 0x54 0xff) = Some (tt, m') /\ wf m' /\
    (forall a : Z, reset_writes a = false ->
       conf m' a = conf (set_conf m_init 0x54 0xff) a) /\
    conf m' 0x50 = conf (set_conf m_init 0x54 0xff) 0x50 /\
    conf m' 0x54 = conf (set_conf m_init 0x54 0xff) 0x54 /\
    conf m' 0x55 = conf (set_conf m_init 0x54 0xff) 0x55 /\
    cpu_cache_ext_enabled m' = cpu_cache_ext_enabled (set_conf m_init 0x54 0xff) /\
    smram (dev m') = smram (dev (set_conf m_init 0x54 0xff)).
Proof.
  assert (Hwf : wf (set_conf m_init 0x54 0xff)) by (apply wf_b_true; vm_compute; reflexivity).
  split; [exact Hwf|].
  apply (hb4_reset_frame (set_conf m_init 0x54 0xff) Hwf).
Defined.

Lemma set_conf_id (m : machine) (a v : Z) :
  conf m a = Some (u8 v) -> set_conf m a v = m.
Proof.
  intros H. apply conf_Some in H as [_ Hl].
  destruct m as [[l h] c cs]. unfold set_conf. cbn in *.
  rewrite (list_insert_id _ _ _ Hl). reflexivity.
Qed.

Lemma reset_result_conf (m : machine) (r54 r55 a : Z) :
  a <> 0x60 -> conf (reset_result m r54 r55) a = conf (reset_stores m) a.
Proof.
  intros Ha. unfold reset_result. generalize (reset_stores m). intros s.
  rewrite conf_add_calls, conf_set_conf_ne, conf_add_calls by lia. reflexivity.
Qed.

Lemma reset_result_conf_0x60 (m : machine) (r54 r55 : Z) :
  wf m -> conf (reset_result m r54 r55) 0x60 = Some 0x20.
Proof.
  intros Hwf.
  assert (Hwfs : wf (reset_stores m))
    by (unfold reset_stores; repeat apply wf_set_conf; exact Hwf).
  unfold reset_result. generalize dependent (reset_stores m). intros s Hwfs.
  rewrite conf_add_calls.
  apply (conf_set_conf_eq_wf (add_calls s (shadow_calls r54 r55)) 0x60 0x20);
    [apply wf_add_calls; exact Hwfs | lia].
Qed.

Lemma reset_result_at_defaults (m : machine) (r54 r55 : Z) :
  wf m -> at_defaults (reset_result m r54 r55).
Proof.
  intros Hwf. unfold at_defaults.
  rewrite !reset_result_conf by lia.
  rewrite (reset_result_conf_0x60 m r54 r55 Hwf).
  unfold reset_stores.
  repeat (split; [conf_after_stores|]). reflexivity.
Qed.

Lemma reset_result_fixed (s : machine) (r54 r55 : Z) :
  at_defaults s ->
  reset_result s r54 r55 =
    add_calls s (shadow_calls r54 r55 ++ smram_calls (smram (dev s)) 0x20).
Proof.
  intros (H0 & H1 & H2 & H3 & H7 & H8 & H9 & Ha & Hb & H51 & H52 & H5a & H5c & H5d & H5f & H60).
  assert (E : reset_stores s = s).
  { unfold reset_stores.
    rewrite (set_conf_id s 0 0x60 H0), (set_conf_id s 1 0x10 H1), (set_conf_id s 2 0x81 H2),
      (set_conf_id s 3 0x88 H3), (set_conf_id s 7 2 H7), (set_conf_id s 8 4 H8),
      (set_conf_id s 9 0 H9), (set_conf_id s 0x0a 0 Ha), (set_conf_id s 0x0b 6 Hb),
      (set_conf_id s 0x51 1 H51), (set_conf_id s 0x52 1 H52), (set_conf_id s 0x5a 4 H5a),
      (set_conf_id s 0x5c 0xc0 H5c), (set_conf_id s 0x5d 0x20 H5d),
      (set_conf_id s 0x5f 0xff H5f).
    reflexivity. }
  unfold reset_result. rewrite E.
  rewrite (set_conf_id (add_calls s (shadow_calls r54 r55)) 0x60 0x20 H60).
  apply add_calls_app.
Qed.

(** X11: a second [hb4_reset] right after a first changes nothing in the
    device (registers and handle) nor in [cpu_cache_ext_enabled], and makes
    the same calls, in the same order, as the first one did. *)
Theorem hb4_reset_idempotent (m : machine) :
  wf m ->
  exists (m1 m2 : machine) (cs : list call),
    hb4_reset m = Some (tt, m1) /\
    hb4_reset m1 = Some (tt, m2) /\
    dev m2 = dev m1 /\
    cpu_cache_ext_enabled m2 = cpu_cache_ext_enabled m1 /\
    calls m1 = calls m ++ cs /\ calls m2 = calls m1 ++ cs.
Proof.
  intros Hwf.
  destruct (conf_wf m 0x54 Hwf) as (r54 & H54 & _); [lia|].
  destruct (conf_wf m 0x55 Hwf) as (r55 & H55 & _); [lia|].
  pose proof (hb4_reset_run m r54 r55 Hwf H54 H55) as Hrun1.
  pose proof (wf_reset_result m r54 r55 Hwf) as Hwf1.
  pose proof (reset_result_at_defaults m r54 r55 Hwf) as Hdef.
  assert (G54 : conf (reset_result m r54 r55) 0x54 = Some r54)
    by (rewrite reset_result_frame by reflexivity; exact H54).
  assert (G55 : conf (reset_result m r54 r55) 0x55 = Some r55)
    by (rewrite reset_result_frame by reflexivity; exact H55).
  assert (Hs : smram (dev (reset_result m r54 r55)) = smram (dev m)) by reflexivity.
  assert (Hc : calls (reset_result m r54 r55) =
               calls m ++ shadow_calls r54 r55 ++ smram_calls (smram (dev m)) 0x20).
  { unfold reset_result. cbn [calls add_calls set_conf]. rewrite <- app_assoc. reflexivity. }
  pose proof (hb4_reset_run _ r54 r55 Hwf1 G54 G55) as Hrun2.
  rewrite (reset_result_fixed _ r54 r55 Hdef), Hs in Hrun2.
  generalize dependent (reset_result m r54 r55). intros s Hrun1 _ _ _ _ _ Hc Hrun2.
  exists s, (add_calls s (shadow_calls r54 r55 ++ smram_calls (smram (dev m)) 0x20)).
  exists (shadow_calls r54 r55 ++ smram_calls (smram (dev m)) 0x20).
  split; [exact Hrun1|]. split; [exact Hrun2|].
  split; [reflexivity|]. split; [reflexivity|]. split; [exact Hc | reflexivity].
Qed.

Lemma hb4_reset_idempotent_witness :
  wf (set_conf m_init 0x54 0x07) /\
  exists (m1 m2 : machine) (cs : list call),
    hb4_reset (set_conf m_init 0x54 0x07) = Some (tt, m1) /\
    hb4_reset m1 = Some (tt, m2) /\
    dev m2 = dev m1 /\
    cpu_cache_ext_enabled m2 = cpu_cache_ext_enabled m1 /\
    calls m1 = calls (set_conf m_init 0x54 0x07) ++ cs /\ calls m2 = calls m1 ++ cs.
Proof.
  assert (Hwf : wf (set_conf m_init 0x54 0x07)) by (apply wf_b_true; vm_compute; reflexivity).
  split; [exact Hwf|].
  apply (hb4_reset_idempotent (set_conf m_init 0x54 0x07) Hwf).
Defined.


(** * Sequences of writes *)

Lemma conf_after_write (m m1 : machine) (func a v oa : Z) :
  wf m -> 0 <= a < 128 -> conf m a = Some oa ->
  hb4_write func a v m = Some (tt, m1) ->
  conf m1 a = Some (reg_after a v oa) /\
  (forall b : Z, b <> a -> conf m1 b = conf m b) /\
  smram (dev m1) = smram (dev m).
Proof.
  intros Hwf Ha Hoa Hrun.
  destruct (hb4_write_effect m func a v oa Hwf Ha Hoa) as (cs & Hrun' & _).
  rewrite Hrun in Hrun'. injection Hrun' as ->.
  apply conf_Some in Hoa as [Hlen Hl].
  split; [|split].
  - apply conf_Some. cbn [dev pci_conf]. rewrite length_insert.
    split; [exact Hlen|]. apply list_lookup_insert_eq. lia.
  - intros b Hb. apply conf_insert_ne; lia.
  - reflexivity.
Qed.

Lemma reg_after_no_policy (a v old : Z) : has_policy a = false -> reg_after a v old = old.
Proof.
  intros Hno. unfold reg_after. rewrite Hno. unfold has_policy in Hno.
  destruct (Z.eqb_spec a 7); [lia|]. destruct (Z.eqb_spec a 80); [lia|]. reflexivity.
Qed.

Lemma clear_keeps_bits (old v : Z) :
  is_byte old ->
  Z.testbit (reg_after 0x07 v old) 1 = Z.testbit old 1 /\
  Z.testbit (reg_after 0x07 v old) 2 = Z.testbit old 2 /\
  Z.land (reg_after 0x07 v old) old = reg_after 0x07 v old.
Proof.
  intros Hb. change (reg_after 0x07 v old) with (u8 (Z.land old (Z.lnot (Z.land v 0xf9)))).
  rewrite u8_byte by (apply is_byte_land_l; exact Hb).
  rewrite !Z.land_spec, !Z.lnot_spec, !Z.land_spec by lia.
  change (Z.testbit 249 1) with false. change (Z.testbit 249 2) with false.
  rewrite !andb_false_r, !andb_true_r.
  split; [reflexivity|]. split; [reflexivity|].
  rewrite <- Z.land_assoc, (Z.land_comm _ old), Z.land_assoc, Z.land_diag. reflexivity.
Qed.

(** X13: no sequence of configuration writes, whatever the offsets (in
    0..127) and values, can leave the array, change a register that has no
    case in the switch (the vendor and device id at 0x00-0x03 and the
    revision and class bytes at 0x08-0x0B among them), change the SMRAM
    handle, change bits 1 and 2 of register 0x07, or set a bit of register
    0x07 that was clear. *)
Theorem hb4_writes_invariants (ws : list (Z * Z)) (m : machine) :
  wf m -> Forall (fun w => 0 <= fst w < 128) ws ->
  exists m' : machine,
    hb4_writes ws m = Some (tt, m') /\ wf m' /\
    smram (dev m') = smram (dev m) /\
    (forall a : Z, has_policy a = false -> conf m' a = conf m a) /\
    (forall old : Z, conf m 0x07 = Some old ->
       exists new : Z,
         conf m' 0x07 = Some new /\
         Z.testbit new 1 = Z.testbit old 1 /\ Z.testbit new 2 = Z.testbit old 2 /\
         Z.land new old = new).
Proof.
  revert m. induction ws as [|[a v] ws IH]; intros m Hwf Hall.
  - exists m. split; [reflexivity|]. split; [exact Hwf|]. split; [reflexivity|].
    split; [reflexivity|].
    intros old Hold. exists old. split; [exact Hold|].
    split; [reflexivity|]. split; [reflexivity|]. apply Z.land_diag.
  - apply Forall_cons in Hall as [Ha Hall]. cbn [fst] in Ha.
    destruct (conf_wf m a Hwf Ha) as (oa & Hoa & Hboa).
    destruct (hb4_write_total m 0 a v Hwf Ha) as (m1 & _ & _ & _ & Hrun & _).
    pose proof (hb4_write_wf _ _ _ _ _ Hwf Ha Hrun) as Hwf1.
    destruct (conf_after_write m m1 0 a v oa Hwf Ha Hoa Hrun) as (Hat & Hother & Hsm).
    destruct (IH m1 Hwf1 Hall) as (m' & Hrun' & Hwf' & Hsm' & Hframe & Hstatus).
    exists m'. split.
    { cbn [hb4_writes]. rewrite (bind_ok _ _ _ _ _ Hrun). exact Hrun'. }
    split; [exact Hwf'|]. split; [congruence|]. split.
    + intros b Hb. rewrite (Hframe b Hb).
      destruct (Z.eq_dec b a) as [->|Hne].
      * rewrite Hat, Hoa, reg_after_no_policy by exact Hb. reflexivity.
      * apply Hother. exact Hne.
    + intros old Hold.
      destruct (Z.eq_dec a 7) as [->|Hne].
      * assert (oa = old) by congruence. subst oa.
        destruct (clear_keeps_bits old v Hboa) as (K1 & K2 & K3).
        destruct (Hstatus _ Hat) as (new & Hnew & N1 & N2 & N3).
        exists new. split; [exact Hnew|].
        split; [congruence|]. split; [congruence|].
        rewrite <- N3 at 1. rewrite <- Z.land_assoc, K3. exact N3.
      * rewrite <- (Hother 7) in Hold by lia.
        destruct (Hstatus _ Hold) as (new & Hnew & N1 & N2 & N3).
        exists new. repeat split; assumption.
Qed.

Lemma hb4_writes_invariants_witness :
  wf m_init /\
  Forall (fun w => 0 <= fst w < 128) [(0x07, 0xff); (0x00, 0x12); (0x54, 0x03); (0x07, 0x06)] /\
  exists m' : machine,
    hb4_writes [(0x07, 0xff); (0x00, 0x12); (0x54, 0x03); (0x07, 0x06)] m_init = Some (tt, m') /\
    wf m' /\
    smram (dev m') = smram (dev m_init) /\
    (forall a : Z, has_policy a = false -> conf m' a = conf m_init a) /\
    (forall old : Z, conf m_init 0x07 = Some old ->
       exists new : Z,
         conf m' 0x07 = Some new /\
         Z.testbit new 1 = Z.testbit old 1 /\ Z.testbit new 2 = Z.testbit old 2 /\
         Z.land new old = new).
Proof.
  assert (Hwf : wf m_init) by (apply wf_b_true; vm_compute; reflexivity).
  assert (Hall : Forall (fun w => 0 <= fst w < 128)
                   [(0x07, 0xff); (0x00, 0x12); (0x54, 0x03); (0x07, 0x06)])
    by (repeat (apply Forall_cons; split; [cbn [fst]; lia|]); apply Forall_nil; exact I).
  split; [exact Hwf|]. split; [exact Hall|].
  apply (hb4_writes_invariants _ m_init Hwf Hall).
Defined.

(** X14: a write to 0x50 brings [cpu_cache_ext_enabled] in line with bit 7
    of register 0x50, and no later write, at any offset and with any value,
    breaks that agreement. *)
Theorem hb4_write_cache_in_sync (m : machine) (func a v : Z) :
  wf m -> 0 <= a < 128 -> a = 0x50 \/ cache_in_sync m ->
  exists m' : machine,
    hb4_write func a v m = Some (tt, m') /\ cache_in_sync m'.
Proof.
  intros Hwf Ha Hsync.
  destruct (conf_wf m a Hwf Ha) as (oa & Hoa & _).
  destruct (hb4_write_effect m func a v oa Hwf Ha Hoa) as (cs & Hrun & _).
  match type of Hrun with _ = Some (_, ?s) => set (m' := s) in * end.
  assert (Hc : cpu_cache_ext_enabled m' = cache_after a v (cpu_cache_ext_enabled m))
    by reflexivity.
  destruct (conf_after_write m m' func a v oa Hwf Ha Hoa Hrun) as (Hat & Hother & _).
  exists m'. split; [exact Hrun|]. clearbody m'.
  unfold cache_in_sync. rewrite Hc. unfold cache_after.
  destruct (Z.eqb_spec a 0x50) as [->|Hne].
  - exists (Z.lor (Z.land v 0xf8) 4). split.
    + rewrite Hat. change (reg_after 80 v oa) with (u8 (Z.lor (Z.land v 0xf8) 4)).
      rewrite u8_byte by apply is_byte_cache_size. reflexivity.
    + change (Z.land v 128) with (Z.land v (2 ^ 7)). rewrite nonzero_land_pow2 by lia.
      rewrite Z.lor_spec, Z.land_spec.
      change (Z.testbit 248 7) with true. change (Z.testbit 4 7) with false.
      rewrite andb_true_r, orb_false_r. reflexivity.
  - destruct Hsync as [Heq | (r & Hr & Hflag)]; [contradiction|].
    exists r. split; [|exact Hflag].
    rewrite Hother by lia. exact Hr.
Qed.

Lemma hb4_write_cache_in_sync_witness :
  wf m_init /\ 0 <= 0x50 < 128 /\ (0x50 = 0x50 \/ cache_in_sync m_init) /\
  exists m' : machine,
    hb4_write 0 0x50 0x9b m_init = Some (tt, m') /\ cache_in_sync m'.
Proof.
  assert (Hwf : wf m_init) by (apply wf_b_true; vm_compute; reflexivity).
  assert (Ha : 0 <= 0x50 < 128) by lia.
  assert (Hs : 0x50 = 0x50 \/ cache_in_sync m_init) by (left; reflexivity).
  split; [exact Hwf|]. split; [exact Ha|]. split; [exact Hs|].
  apply (hb4_write_cache_in_sync m_init 0 0x50 0x9b Hwf Ha Hs).
Defined.
